(** * OrçaMais ledger engine: a shallow embedding of [core/DataManager]

    The development follows [src/core/DataManager.ts] and, where the two
    differ, [src/core/DataManager.js].

    - A JavaScript Number is an IEEE 754 binary64 value: [spec_float] with
      [prec = 53] and [emax = 1024], with the operations of
      [Floats.SpecFloat] (round to nearest, ties to even).
    - A JavaScript string is a [string]; every [ascii] stands for one code
      unit (the code units below 256).
    - Objects used as dictionaries are finite maps of their own
      properties. [expensesByCategory], whose keys are free text, is read
      and written through the prototype chain: the members every object
      inherits from [Object.prototype] are [DM.objectPrototype]. [users] is
      keyed by the ids [generateUserId] derives and [monthlyIncomes] by
      period keys; a theorem whose statement depends on such a key not
      being an inherited member says so.
    - [localStorage] holds JSON text. The manager's [localStorage] field
      is the value whose text was written; [Json.stringify] is the text,
      and [Json.literal] relates a text to the value [JSON.parse] returns.
    - [this.currentUser] is a reference to an entry of [this.data.users];
      it is modelled by the key of that entry, so that a write through
      [this.currentUser] is a write to [this.data.users].
    - What the host decides (the clock, [Math.random], whether
      [localStorage.setItem] throws, [Date] parsing) is an explicit input. *)

From Stdlib Require Import ZArith Bool List Ascii String Lia.
From Stdlib Require Import Floats.SpecFloat.
From Stdlib Require Import Sorted Permutation.
From stdpp Require Import gmap strings list fin_maps.

Local Open Scope Z_scope.

(* ===================================================================== *)
(** * Numbers *)
(* ===================================================================== *)

Abbreviation number := spec_float.

Module Num.

Definition prec : Z := 53.
Definition emax : Z := 1024.

Definition NaN : number := S754_nan.
Definition zero : number := S754_zero false.
Definition Infinity : number := S754_infinity false.

Definition add : number -> number -> number := SFadd prec emax.
Definition sub : number -> number -> number := SFsub prec emax.
Definition mul : number -> number -> number := SFmul prec emax.
Definition div : number -> number -> number := SFdiv prec emax.

(** A numeral written in the source, such as [100]. *)
Definition of_Z (z : Z) : number := binary_normalize prec emax z 0 false.

Definition isNaN (x : number) : bool :=
  match x with S754_nan => true | _ => false end.

Definition isFinite (x : number) : bool :=
  match x with S754_zero _ | S754_finite _ _ _ => true | _ => false end.

Definition is_zero (x : number) : bool :=
  match x with S754_zero _ => true | _ => false end.

(** ToBoolean on a Number: [NaN], [+0] and [-0] are falsy. *)
Definition truthy (x : number) : bool :=
  match x with S754_nan | S754_zero _ => false | _ => true end.

(** [x || d] on Numbers. *)
Definition or_else (x d : number) : number := if truthy x then x else d.

(** [x > y] *)
Definition gt (x y : number) : bool := SFltb y x.

(** A number that is neither [NaN] nor below zero ([-0] counts as zero). *)
Definition nonneg (x : number) : bool :=
  match x with
  | S754_nan => false
  | S754_zero _ => true
  | S754_infinity s | S754_finite s _ _ => negb s
  end.

(** A number that is [+0] or above: what a running sum of amounts that
    are not negative is. *)
Definition plus (x : number) : bool :=
  match x with
  | S754_zero s | S754_infinity s | S754_finite s _ _ => negb s
  | S754_nan => false
  end.

(** The sum a [reduce((sum, v) => sum + v, 0)] computes, left to right. *)
Definition sum (l : list number) : number := fold_left add l zero.

End Num.

(* ===================================================================== *)
(** * Strings *)
(* ===================================================================== *)

Module Str.

Local Open Scope nat_scope.

Definition code (c : ascii) : nat := nat_of_ascii c.

(** [s.substring(a, b)]: both indices are clamped to the length and
    swapped when [a > b]. *)
Definition substring (a b : nat) (s : string) : string :=
  String.substring (Nat.min a b) (Nat.max a b - Nat.min a b) s.

(** [s.startsWith(p)] *)
Definition startsWith (p s : string) : bool := String.prefix p s.

(** WhiteSpace and LineTerminator code units below 256: TAB, LF, VT, FF,
    CR, SP and NBSP. *)
Definition is_space (c : ascii) : bool :=
  let n := code c in
  ((9 <=? n) && (n <=? 13)) || (n =? 32) || (n =? 160).

Fixpoint trimStart (s : string) : string :=
  match s with
  | String c r => if is_space c then trimStart r else s
  | EmptyString => EmptyString
  end.

(** Drops the white space at the end: [None] when nothing but white
    space is left. *)
Fixpoint trimEnd_aux (s : string) : option string :=
  match s with
  | EmptyString => None
  | String c r =>
      match trimEnd_aux r with
      | Some r' => Some (String c r')
      | None => if is_space c then None else Some (String c EmptyString)
      end
  end.

Definition trimEnd (s : string) : string :=
  match trimEnd_aux s with Some r => r | None => EmptyString end.

(** [s.trim()] *)
Definition trim (s : string) : string := trimEnd (trimStart s).

(** [s.split(sep)[0]] for a one-character separator. *)
Fixpoint split_head (sep : ascii) (s : string) : string :=
  match s with
  | EmptyString => EmptyString
  | String c r => if Ascii.eqb c sep then EmptyString else String c (split_head sep r)
  end.

Definition is_digit (c : ascii) : bool := (48 <=? code c) && (code c <=? 57).
Definition is_upper (c : ascii) : bool := (65 <=? code c) && (code c <=? 90).
Definition is_lower (c : ascii) : bool := (97 <=? code c) && (code c <=? 122).
Definition is_alnum (c : ascii) : bool := is_digit c || is_upper c || is_lower c.

Fixpoint map (f : ascii -> ascii) (s : string) : string :=
  match s with
  | EmptyString => EmptyString
  | String c r => String (f c) (map f r)
  end.

Fixpoint filter (f : ascii -> bool) (s : string) : string :=
  match s with
  | EmptyString => EmptyString
  | String c r => if f c then String c (filter f r) else filter f r
  end.

(** [toLowerCase] on the code units below 256: A-Z, and the accented
    capitals 192-222 except the multiplication sign 215. *)
Definition lower_char (c : ascii) : ascii :=
  let n := code c in
  if is_upper c then ascii_of_nat (n + 32)
  else if (192 <=? n) && (n <=? 222) && negb (n =? 215) then ascii_of_nat (n + 32)
  else c.

Definition toLowerCase (s : string) : string := map lower_char s.

End Str.

(* ===================================================================== *)
(** * Host functions: [btoa] and [parseFloat] *)
(* ===================================================================== *)

Module Host.

Import Str.

Section Base64.
Local Open Scope nat_scope.

Definition b64_char (n : nat) : ascii :=
  if n <? 26 then ascii_of_nat (65 + n)
  else if n <? 52 then ascii_of_nat (97 + (n - 26))
  else if n <? 62 then ascii_of_nat (48 + (n - 52))
  else if n =? 62 then "+"%char
  else "/"%char.

(** [btoa]: base64 of the code units, padded with [=]. (The browser's
    [btoa] throws on a code unit above 255; there is none here.) *)
Fixpoint btoa (s : string) : string :=
  match s with
  | EmptyString => EmptyString
  | String a EmptyString =>
      let x := code a in
      String (b64_char (x / 4)) (String (b64_char (x mod 4 * 16)) "==")
  | String a (String b EmptyString) =>
      let x := code a in
      let y := code b in
      String (b64_char (x / 4))
        (String (b64_char (x mod 4 * 16 + y / 16))
           (String (b64_char (y mod 16 * 4)) "="))
  | String a (String b (String c r)) =>
      let x := code a in
      let y := code b in
      let z := code c in
      String (b64_char (x / 4))
        (String (b64_char (x mod 4 * 16 + y / 16))
           (String (b64_char (y mod 16 * 4 + z / 64))
              (String (b64_char (z mod 64)) (btoa r))))
  end.
End Base64.

(** ** [parseFloat]

    ECMA-262, [parseFloat(string)]: leading white space is dropped, the
    longest prefix that is a [StrDecimalLiteral] is read, and its
    mathematical value is rounded to the nearest Number; [NaN] when no
    prefix is one. *)

Definition digit_val (c : ascii) : Z := Z.of_nat (code c) - 48.

(** Reads the digits at the start of [s] into the accumulator: the
    value read, the number of digits, and what is left of [s]. *)
Fixpoint read_digits (s : string) (acc : Z) (n : nat) : Z * nat * string :=
  match s with
  | String c r =>
      if is_digit c then read_digits r (10 * acc + digit_val c) (S n)
      else (acc, n, s)
  | EmptyString => (acc, n, s)
  end.

(** The [ExponentPart] at the start of [s], when there is a whole one. *)
Definition read_exponent (s : string) : Z :=
  match s with
  | String c r =>
      if Ascii.eqb c "e" || Ascii.eqb c "E" then
        let '(neg, r') :=
          match r with
          | String "+" t => (false, t)
          | String "-" t => (true, t)
          | _ => (false, r)
          end in
        let '(v, n, _) := read_digits r' 0 0%nat in
        match n with
        | O => 0
        | S _ => if neg then - v else v
        end
      else 0
  | EmptyString => 0
  end.

(** [m * 10 ^ e] rounded to the nearest binary64 number, [m > 0]. *)
Definition round_decimal (neg : bool) (m : positive) (e : Z) : number :=
  if 0 <=? e then
    binary_normalize Num.prec Num.emax
      (cond_Zopp neg (Zpos m * 10 ^ e)) 0 false
  else
    SFdiv Num.prec Num.emax
      (S754_finite neg m 0)
      (S754_finite false (Z.to_pos (10 ^ (- e))) 0).

Definition read_unsigned (neg : bool) (s : string) : number :=
  if String.prefix "Infinity" s then S754_infinity neg
  else
    let '(ip, ni, r1) := read_digits s 0 0%nat in
    let '(m, nf, r2) :=
      match r1 with
      | String "." t =>
          let '(m, nf, r2) := read_digits t ip 0%nat in
          match ni, nf with
          | O, O => (ip, O, r1)
          | _, _ => (m, nf, r2)
          end
      | _ => (ip, O, r1)
      end in
    match ni, nf with
    | O, O => S754_nan
    | _, _ =>
        match m with
        | Zpos p => round_decimal neg p (read_exponent r2 - Z.of_nat nf)
        | _ => S754_zero neg
        end
    end.

Definition parseFloat_string (s : string) : number :=
  match trimStart s with
  | String "+" r => read_unsigned false r
  | String "-" r => read_unsigned true r
  | t => read_unsigned false t
  end.

(** [parseFloat(x.toString())] for a Number [x]: [Number::toString]
    prints [NaN], [Infinity], [-Infinity], [0] for both zeros, and for
    any other number the shortest decimal that reads back as [x]. *)
Definition parseFloat_number (x : number) : number :=
  match x with
  | S754_zero _ => S754_zero false
  | _ => x
  end.

(** The values of an untyped ([any]) amount that are considered. *)
Inductive jsval :=
| JUndefined
| JString (s : string)
| JNumber (x : number).

(** [parseFloat(v)] = [parseFloat(ToString(v))] *)
Definition parseFloat (v : jsval) : number :=
  match v with
  | JUndefined => S754_nan
  | JString s => parseFloat_string s
  | JNumber x => parseFloat_number x
  end.

End Host.

(* ===================================================================== *)
(** * The data model *)
(* ===================================================================== *)

Local Open Scope string_scope.

Record UserProfile := {
  name : string;
  email : string;
  profile_createdAt : string;
  lastLogin : string
}.

Record Transaction := {
  id : string;
  description : option string;      (* [undefined] when the caller gave none *)
  amount : number;
  type : string;                    (* 'income' | 'expense' *)
  category : string;
  date : string;
  createdAt : string
}.

Record Financial := {
  monthlyIncomes : gmap string number;
  transactions : list Transaction;
  categories : list string;
  goals : list Host.jsval
}.

Record Settings := {
  currency : string;
  theme : string;
  notifications : bool
}.

Record UserData := {
  user_id : string;
  profile : UserProfile;
  financial : Financial;
  settings : Settings
}.

Record AppData := {
  users : gmap string UserData;
  currentUserId : option string;
  version : string
}.

(** The manager: [data], the reference [currentUser] (the key of the entry
    of [users data] it points to) and the blob under [STORAGE_KEY] in
    [localStorage]. *)
Record DataManager := {
  data : AppData;
  currentUser : option string;
  localStorage : option AppData
}.

(** What the host answers during one call. *)
Record World := {
  toISOString : nat -> string;   (* the n-th [new Date().toISOString()] of the call *)
  dateNow36 : string;            (* [Date.now().toString(36)] *)
  random36 : string;             (* [Math.random().toString(36)] *)
  setItem_ok : bool              (* [localStorage.setItem] does not throw *)
}.

(** The argument of [registerUser]. *)
Record RegisterData := {
  rd_name : string;
  rd_email : string
}.

(** The argument of [addTransaction]. *)
Record TransactionData := {
  td_description : option string;
  td_amount : Host.jsval;
  td_type : string;
  td_category : option string;
  td_date : option string
}.

(** [{ success; user?; message? }] *)
Record AuthResult := {
  success : bool;
  user : option UserData;
  message : option string
}.

(** What a property of [expensesByCategory] can hold: a number, or the
    text that [+] gives when its left operand is not a number. *)
Inductive jsprop :=
| PNumber (x : number)
| PText.

Record Summary := {
  period : string;
  monthlyIncome : number;
  totalIncome : number;
  totalExpenses : number;
  balance : number;
  transactionCount : nat;
  expensesByCategory : gmap string jsprop;
  summary_transactions : list Transaction
}.

Record Delta := {
  incomeChange : number;
  expenseChange : number;
  balanceChange : number;
  incomeChangePercent : number;
  expenseChangePercent : number
}.

Record Comparison := {
  period1 : Summary;
  period2 : Summary;
  comparison : Delta
}.

(** Record updates. *)
Definition set_financial (f : Financial -> Financial) (u : UserData) : UserData :=
  {| user_id := user_id u; profile := profile u;
     financial := f (financial u); settings := settings u |}.

Definition set_transactions (f : list Transaction -> list Transaction)
    (fin : Financial) : Financial :=
  {| monthlyIncomes := monthlyIncomes fin; transactions := f (transactions fin);
     categories := categories fin; goals := goals fin |}.

Definition set_monthlyIncomes (f : gmap string number -> gmap string number)
    (fin : Financial) : Financial :=
  {| monthlyIncomes := f (monthlyIncomes fin); transactions := transactions fin;
     categories := categories fin; goals := goals fin |}.

Definition set_categories (f : list string -> list string)
    (fin : Financial) : Financial :=
  {| monthlyIncomes := monthlyIncomes fin; transactions := transactions fin;
     categories := f (categories fin); goals := goals fin |}.

Definition set_lastLogin (t : string) (u : UserData) : UserData :=
  {| user_id := user_id u;
     profile := {| name := name (profile u); email := email (profile u);
                   profile_createdAt := profile_createdAt (profile u);
                   lastLogin := t |};
     financial := financial u; settings := settings u |}.

Definition set_users (f : gmap string UserData -> gmap string UserData)
    (d : AppData) : AppData :=
  {| users := f (users d); currentUserId := currentUserId d; version := version d |}.

(* ===================================================================== *)
(** * The manager, as both files have it *)
(* ===================================================================== *)

Module DM.

(** [{ users: {}, currentUserId: null, version: '2.0.0' }] *)
Definition emptyData : AppData :=
  {| users := ∅; currentUserId := None; version := "2.0.0" |}.

(** [loadData]: [stored] is what [JSON.parse] returns for the stored
    text; without a stored text, the empty table. *)
Definition loadData (stored : option AppData) : AppData :=
  match stored with
  | Some d => d
  | None => emptyData
  end.

(** [saveData]: the text of the whole of [data] is written, and [false]
    is returned when the write throws. The field [localStorage] keeps the
    value whose text was written ([Json.stringify] gives the text). *)
Definition saveData (w : World) (st : DataManager) : bool * DataManager :=
  if setItem_ok w
  then (true, {| data := data st; currentUser := currentUser st;
                 localStorage := Some (data st) |})
  else (false, st).

(** The object [this.currentUser] points to; [None] is [null]. *)
Definition getCurrentUser (st : DataManager) : option UserData :=
  match currentUser st with
  | Some k => users (data st) !! k
  | None => None
  end.

Definition isLoggedIn (st : DataManager) : bool :=
  match getCurrentUser st with
  | Some _ => true
  | None => false
  end.

(** A write through [this.currentUser]. *)
Definition update_currentUser (f : UserData -> UserData) (st : DataManager)
  : DataManager :=
  match currentUser st with
  | Some k =>
      {| data := set_users (alter f k) (data st);
         currentUser := currentUser st;
         localStorage := localStorage st |}
  | None => st
  end.

Definition defaultCategories : list string :=
  [ "Alimenta" +:+ String "231" (String "227" "o");
    "Transporte"; "Moradia";
    "Sa" +:+ String "250" "de";
    "Educa" +:+ String "231" (String "227" "o");
    "Lazer"; "Compras"; "Outros" ].

Definition createUserStructure (userId : string) (userData : RegisterData)
    (w : World) : UserData :=
  {| user_id := userId;
     profile := {| name := rd_name userData;
                   email := rd_email userData;
                   profile_createdAt := toISOString w 0%nat;
                   lastLogin := toISOString w 1%nat |};
     financial := {| monthlyIncomes := ∅;
                     transactions := [];
                     categories := defaultCategories;
                     goals := [] |};
     settings := {| currency := "BRL"; theme := "light"; notifications := true |} |}.

(** The members of [Object.prototype], which an object literal inherits:
    eleven functions and the accessor [__proto__]. *)
Definition objectPrototype : list string :=
  [ "constructor"; "hasOwnProperty"; "isPrototypeOf"; "propertyIsEnumerable";
    "toLocaleString"; "toString"; "valueOf";
    "__defineGetter__"; "__defineSetter__";
    "__lookupGetter__"; "__lookupSetter__"; "__proto__" ].

Definition inherited (k : string) : bool :=
  existsb (String.eqb k) objectPrototype.

(** [btoa(email.toLowerCase()).replace(/[^a-zA-Z0-9]/g, '')] *)
Definition generateUserId (email : string) : string :=
  Str.filter Str.is_alnum (Host.btoa (Str.toLowerCase email)).

(** [Date.now().toString(36) + Math.random().toString(36).substr(2)] *)
Definition generateTransactionId (w : World) : string :=
  dateNow36 w +:+ String.substring 2 (String.length (random36 w)) (random36 w).

Definition msg_exists : string := "Usu" +:+ String "225" ("rio j" +:+ String "225" " existe").
Definition msg_save_error : string := "Erro ao salvar dados".
Definition msg_not_found : string :=
  "Usu" +:+ String "225" ("rio n" +:+ String "227" "o encontrado").

(** [registerUser]. [users[userId]] is looked up among the accounts the
    table holds. This is the code's answer for every id that is not
    [inherited]; under the name of an inherited member the code finds
    that member and reports an existing account. *)
Definition registerUser (userData : RegisterData) (w : World) (st : DataManager)
  : AuthResult * DataManager :=
  let userId := generateUserId (rd_email userData) in
  match users (data st) !! userId with
  | Some _ =>
      ({| success := false; user := None; message := Some msg_exists |}, st)
  | None =>
      let st1 :=
        {| data := {| users := <[userId := createUserStructure userId userData w]>
                                 (users (data st));
                      currentUserId := Some userId;
                      version := version (data st) |};
           currentUser := Some userId;
           localStorage := localStorage st |} in
      let '(ok, st2) := saveData w st1 in
      if ok
      then ({| success := true; user := getCurrentUser st2; message := None |}, st2)
      else ({| success := false; user := None; message := Some msg_save_error |}, st2)
  end.

(** [loginUser]. The password is not looked at. As in [registerUser],
    [users[userId]] is looked up among the accounts the table holds. *)
Definition loginUser (email password : string) (w : World) (st : DataManager)
  : AuthResult * DataManager :=
  let userId := generateUserId email in
  match users (data st) !! userId with
  | None =>
      ({| success := false; user := None; message := Some msg_not_found |}, st)
  | Some _ =>
      let st1 :=
        {| data := {| users := alter (set_lastLogin (toISOString w 0%nat)) userId
                                 (users (data st));
                      currentUserId := Some userId;
                      version := version (data st) |};
           currentUser := Some userId;
           localStorage := localStorage st |} in
      let '(_, st2) := saveData w st1 in
      ({| success := true; user := getCurrentUser st2; message := None |}, st2)
  end.

Definition logout (w : World) (st : DataManager) : DataManager :=
  let st1 :=
    {| data := {| users := users (data st); currentUserId := None;
                  version := version (data st) |};
       currentUser := None;
       localStorage := localStorage st |} in
  snd (saveData w st1).

(** [monthlyIncomes[yearMonth] || 0] *)
Definition getMonthlyIncome (yearMonth : string) (st : DataManager) : number :=
  match getCurrentUser st with
  | None => Num.zero
  | Some u =>
      match monthlyIncomes (financial u) !! yearMonth with
      | Some x => Num.or_else x Num.zero
      | None => Num.zero
      end
  end.

(** [s || d] on an optional string: [undefined] and [''] are falsy. *)
Definition str_or_else (s : option string) (d : string) : string :=
  match s with
  | Some (String c r) => String c r
  | _ => d
  end.

(** The record [addTransaction] builds. The clock is read for the date
    only when the caller gave none, and then once more for [createdAt]. *)
Definition newTransaction (transactionData : TransactionData) (w : World)
  : Transaction :=
  let today := Str.split_head "T" (toISOString w 0%nat) in
  let reads := match str_or_else (td_date transactionData) "" with
               | EmptyString => 1%nat
               | _ => 0%nat
               end in
  {| id := generateTransactionId w;
     description := td_description transactionData;
     amount := Host.parseFloat (td_amount transactionData);
     type := td_type transactionData;
     category := str_or_else (td_category transactionData) "Outros";
     date := str_or_else (td_date transactionData) today;
     createdAt := toISOString w reads |}.

(** [Transaction | false]: [None] is [false]. *)
Definition addTransaction (transactionData : TransactionData) (w : World)
    (st : DataManager) : option Transaction * DataManager :=
  match getCurrentUser st with
  | None => (None, st)
  | Some _ =>
      let transaction := newTransaction transactionData w in
      let st1 :=
        update_currentUser
          (set_financial (set_transactions (cons transaction))) st in
      let '(ok, st2) := saveData w st1 in
      (if ok then Some transaction else None, st2)
  end.

(** [findIndex(t => t.id === transactionId)]; [None] is [-1]. *)
Fixpoint findIndex (transactionId : string) (l : list Transaction) : option nat :=
  match l with
  | [] => None
  | t :: r =>
      if String.eqb (id t) transactionId then Some 0%nat
      else match findIndex transactionId r with
           | Some i => Some (S i)
           | None => None
           end
  end.

(** [splice(index, 1)] *)
Definition splice1 (index : nat) (l : list Transaction) : list Transaction :=
  (take index l ++ drop (S index) l)%list.

Definition removeTransaction (transactionId : string) (w : World)
    (st : DataManager) : bool * DataManager :=
  match getCurrentUser st with
  | None => (false, st)
  | Some u =>
      match findIndex transactionId (transactions (financial u)) with
      | None => (false, st)
      | Some index =>
          saveData w
            (update_currentUser
               (set_financial (set_transactions (splice1 index))) st)
      end
  end.

Definition getCategories (st : DataManager) : list string :=
  match getCurrentUser st with
  | None => []
  | Some u => categories (financial u)
  end.

(** [categories.includes(categoryName)] *)
Definition includes (x : string) (l : list string) : bool :=
  existsb (String.eqb x) l.

Definition addCategory (categoryName : string) (w : World) (st : DataManager)
  : bool * DataManager :=
  match getCurrentUser st with
  | None => (false, st)
  | Some u =>
      match Str.trim categoryName with
      | EmptyString => (false, st)
      | _ =>
          if includes categoryName (categories (financial u))
          then (false, st)
          else saveData w
                 (update_currentUser
                    (set_financial (set_categories (fun l => (l ++ [categoryName])%list)))
                    st)
      end
  end.

(** ** The parts of [getFinancialSummary] *)

Definition is_income (t : Transaction) : bool := String.eqb (type t) "income".
Definition is_expense (t : Transaction) : bool := String.eqb (type t) "expense".

(** [.reduce((sum, t) => sum + t.amount, 0)] *)
Definition reduce_amounts (l : list Transaction) : number :=
  fold_left (fun sum t => Num.add sum (amount t)) l Num.zero.

(** One step of the [forEach]:
    [acc[t.category] = (acc[t.category] || 0) + t.amount],
    on the object literal [{}].
    - An own property shadows the prototype: a number [x] becomes
      [(x || 0) + amount]; a text is not empty, so it stays a text.
    - Without an own property the read goes to [Object.prototype]. For
      [__proto__] it returns the prototype object, [+] makes a text of it,
      and the write reaches the setter of [__proto__], which ignores a
      value that is neither an object nor [null]: no property is made.
      For another inherited member it returns a function, [+] makes a
      text of it, and the write creates an own property.
    - Otherwise the read is [undefined] and [0 + amount] is written. *)
Definition addToCategory (acc : gmap string jsprop) (t : Transaction)
  : gmap string jsprop :=
  match acc !! category t with
  | Some (PNumber x) =>
      <[category t := PNumber (Num.add (Num.or_else x Num.zero) (amount t))]> acc
  | Some PText => <[category t := PText]> acc
  | None =>
      if String.eqb (category t) "__proto__" then acc
      else if inherited (category t) then <[category t := PText]> acc
      else <[category t := PNumber (Num.add Num.zero (amount t))]> acc
  end.

Definition groupByCategory (l : list Transaction) : gmap string jsprop :=
  fold_left addToCategory l ∅.

(** [Array.prototype.sort(cmp)]: a stable sort. [cmp a b] is the sign the
    comparator returns ([NaN] counts as [0]). For a comparator that is an
    ordering the result is the one stable sorted arrangement, computed
    here by insertion. For a comparator that is not an ordering (here: a
    date that [Date] cannot parse) the host may arrange the elements in
    any order, and only that the result is a rearrangement of the input
    carries over from this definition. *)
Fixpoint insert_by (cmp : Transaction -> Transaction -> Z) (x : Transaction)
    (l : list Transaction) : list Transaction :=
  match l with
  | [] => [x]
  | y :: r => if (cmp x y <=? 0)%Z then x :: y :: r else y :: insert_by cmp x r
  end.

Definition sort (cmp : Transaction -> Transaction -> Z) (l : list Transaction)
  : list Transaction :=
  fold_right (insert_by cmp) [] l.

Definition delta (summary1 summary2 : Summary) : Delta :=
  {| incomeChange := Num.sub (totalIncome summary2) (totalIncome summary1);
     expenseChange := Num.sub (totalExpenses summary2) (totalExpenses summary1);
     balanceChange := Num.sub (balance summary2) (balance summary1);
     incomeChangePercent :=
       if Num.gt (totalIncome summary1) Num.zero
       then Num.mul
              (Num.div (Num.sub (totalIncome summary2) (totalIncome summary1))
                       (totalIncome summary1))
              (Num.of_Z 100)
       else Num.zero;
     expenseChangePercent :=
       if Num.gt (totalExpenses summary1) Num.zero
       then Num.mul
              (Num.div (Num.sub (totalExpenses summary2) (totalExpenses summary1))
                       (totalExpenses summary1))
              (Num.of_Z 100)
       else Num.zero |}.

End DM.

(* ===================================================================== *)
(** * What [DataManager.ts] has of its own *)
(* ===================================================================== *)

Module TS.

Import DM.

(** The constructor restores the session of the stored blob. *)
Definition init (stored : option AppData) : DataManager :=
  let d := loadData stored in
  {| data := d;
     currentUser :=
       match currentUserId d with
       | Some (String c r) =>
           match users d !! String c r with
           | Some _ => Some (String c r)
           | None => None
           end
       | _ => None
       end;
     localStorage := stored |}.

(** [amount] is a Number here, and is printed before it is parsed:
    [parseFloat(amount.toString()) || 0]. *)
Definition setMonthlyIncome (yearMonth : string) (amount : number) (w : World)
    (st : DataManager) : bool * DataManager :=
  match getCurrentUser st with
  | None => (false, st)
  | Some _ =>
      saveData w
        (update_currentUser
           (set_financial
              (set_monthlyIncomes
                 (<[yearMonth :=
                      Num.or_else (Host.parseFloat_number amount) Num.zero]>)))
           st)
  end.

Definition getTransactionsByPeriod (yearMonth : string) (st : DataManager)
  : list Transaction :=
  match getCurrentUser st with
  | None => []
  | Some u =>
      let targetPeriod := Str.trim yearMonth in
      List.filter
        (fun transaction =>
           let transactionPeriod := Str.substring 0 7 (date transaction) in
           String.eqb transactionPeriod targetPeriod)
        (transactions (financial u))
  end.

Section WithDate.

(** [new Date(s).getTime()]: the time value in milliseconds, [None] for
    an invalid date ([NaN]). *)
Variable getTime : string -> option Z.

(** The sign of
    [new Date(b.date).getTime() - new Date(a.date).getTime()].
    Time values are integers of magnitude at most 8.64e15, so the
    rounded difference has the sign of the exact one; with an invalid
    date the difference is [NaN], which [sort] takes as [0]. *)
Definition byDateDesc (a b : Transaction) : Z :=
  match getTime (date b), getTime (date a) with
  | Some tb, Some ta => (tb - ta)%Z
  | _, _ => 0%Z
  end.

Definition getFinancialSummary (yearMonth : string) (st : DataManager)
  : option Summary :=
  match getCurrentUser st with
  | None => None
  | Some _ =>
      let txs := getTransactionsByPeriod yearMonth st in
      let monthlyIncome := getMonthlyIncome yearMonth st in
      let periodIncome := reduce_amounts (List.filter is_income txs) in
      let totalIncome := Num.add monthlyIncome periodIncome in
      let totalExpenses := reduce_amounts (List.filter is_expense txs) in
      let balance := Num.sub totalIncome totalExpenses in
      let expensesByCategory := groupByCategory (List.filter is_expense txs) in
      Some {| period := yearMonth;
              monthlyIncome := monthlyIncome;
              totalIncome := totalIncome;
              totalExpenses := totalExpenses;
              balance := balance;
              transactionCount := length txs;
              expensesByCategory := expensesByCategory;
              summary_transactions := sort byDateDesc txs |}
  end.

Definition comparePeriods (p1 p2 : string) (st : DataManager)
  : option Comparison :=
  match getFinancialSummary p1 st, getFinancialSummary p2 st with
  | Some summary1, Some summary2 =>
      Some {| period1 := summary1; period2 := summary2;
              comparison := delta summary1 summary2 |}
  | _, _ => None
  end.

End WithDate.

End TS.

(* ===================================================================== *)
(** * What [DataManager.js] has of its own *)
(* ===================================================================== *)

Module JS.

Import DM.

(** The constructor leaves [currentUser] at [null]. *)
Definition init (stored : option AppData) : DataManager :=
  {| data := loadData stored; currentUser := None; localStorage := stored |}.

(** [parseFloat(amount) || 0] *)
Definition setMonthlyIncome (yearMonth : string) (amount : Host.jsval)
    (w : World) (st : DataManager) : bool * DataManager :=
  match getCurrentUser st with
  | None => (false, st)
  | Some _ =>
      saveData w
        (update_currentUser
           (set_financial
              (set_monthlyIncomes
                 (<[yearMonth := Num.or_else (Host.parseFloat amount) Num.zero]>)))
           st)
  end.

Definition getTransactionsByPeriod (yearMonth : string) (st : DataManager)
  : list Transaction :=
  match getCurrentUser st with
  | None => []
  | Some u =>
      List.filter
        (fun transaction => Str.startsWith yearMonth (date transaction))
        (transactions (financial u))
  end.

Definition getAllTransactions (st : DataManager) : list Transaction :=
  match getCurrentUser st with
  | None => []
  | Some u => transactions (financial u)
  end.

Definition getFinancialSummary (yearMonth : string) (st : DataManager)
  : option Summary :=
  match getCurrentUser st with
  | None => None
  | Some _ =>
      let txs := getTransactionsByPeriod yearMonth st in
      let monthlyIncome := getMonthlyIncome yearMonth st in
      let totalIncome :=
        Num.add (reduce_amounts (List.filter is_income txs)) monthlyIncome in
      let totalExpenses := reduce_amounts (List.filter is_expense txs) in
      let balance := Num.sub totalIncome totalExpenses in
      let expensesByCategory := groupByCategory (List.filter is_expense txs) in
      Some {| period := yearMonth;
              monthlyIncome := monthlyIncome;
              totalIncome := totalIncome;
              totalExpenses := totalExpenses;
              balance := balance;
              transactionCount := length txs;
              expensesByCategory := expensesByCategory;
              summary_transactions := txs |}
  end.

Definition comparePeriods (p1 p2 : string) (st : DataManager)
  : option Comparison :=
  match getFinancialSummary p1 st, getFinancialSummary p2 st with
  | Some summary1, Some summary2 =>
      Some {| period1 := summary1; period2 := summary2;
              comparison := delta summary1 summary2 |}
  | _, _ => None
  end.

End JS.

(* ===================================================================== *)
(** * Sample data *)
(* ===================================================================== *)

Module Sample.

Import DM.

(** A host whose clock stands at noon on 2024-02-03 and whose storage
    accepts the write. *)
Definition world (n : string) : World :=
  {| toISOString := fun _ => "2024-02-03T12:00:00.000Z";
     dateNow36 := "ls5x" +:+ n;
     random36 := "0.4fzyo82mvyr";
     setItem_ok := true |}.

(** Reads [n] digits of [s] from [i] on. *)
Fixpoint digits_at (n i : nat) (s : string) (acc : Z) : option Z :=
  match n with
  | O => Some acc
  | S n' =>
      match String.get i s with
      | Some c =>
          if Str.is_digit c
          then digits_at n' (S i) s (10 * acc + Host.digit_val c)%Z
          else None
      | None => None
      end
  end.

Definition days_in_month (y m : Z) : Z :=
  if (m =? 2)%Z then
    if ((y mod 4 =? 0) && (negb (y mod 100 =? 0) || (y mod 400 =? 0)))%Z
    then 29%Z else 28%Z
  else if ((m =? 4) || (m =? 6) || (m =? 9) || (m =? 11))%Z then 30%Z
  else 31%Z.

(** Days from 1970-01-01 to the given day of the Gregorian calendar. *)
Definition days_from_civil (y m d : Z) : Z :=
  let y' := (if m <=? 2 then y - 1 else y)%Z in
  let era := (y' / 400)%Z in
  let yoe := (y' - era * 400)%Z in
  let doy := ((153 * (if 2 <? m then m - 3 else m + 9) + 2) / 5 + d - 1)%Z in
  let doe := (yoe * 365 + yoe / 4 - yoe / 100 + doy)%Z in
  (era * 146097 + doe - 719468)%Z.

Definition is_dash (c : option ascii) : bool :=
  match c with
  | Some c => Ascii.eqb c "-"
  | None => false
  end.

(** A host date parser for the samples: the date-only form [YYYY-MM-DD]
    of the ISO format, read as midnight UTC; anything else is taken as
    an invalid date. *)
Definition getTime (s : string) : option Z :=
  match digits_at 4 0 s 0%Z, digits_at 2 5 s 0%Z, digits_at 2 8 s 0%Z with
  | Some y, Some m, Some d =>
      if ((String.length s =? 10)%nat
          && is_dash (String.get 4 s) && is_dash (String.get 7 s)
          && (1 <=? m)%Z && (m <=? 12)%Z && (1 <=? d)%Z && (d <=? days_in_month y m)%Z)
      then Some (days_from_civil y m d * 86400000)%Z
      else None
  | _, _, _ => None
  end.

Definition fresh : DataManager := JS.init None.

Definition ana : RegisterData := {| rd_name := "Ana"; rd_email := "a@b.com" |}.

Definition registered : DataManager := snd (registerUser ana (world "0") fresh).

Definition groceries : TransactionData :=
  {| td_description := Some "Groceries"; td_amount := Host.JString "200";
     td_type := "expense"; td_category := Some "Food";
     td_date := Some "2024-01-15" |}.

Definition freelance : TransactionData :=
  {| td_description := Some "Freelance"; td_amount := Host.JString "300";
     td_type := "income"; td_category := None;
     td_date := Some "2024-01-20" |}.

(** An amount that is not a number. *)
Definition broken : TransactionData :=
  {| td_description := None; td_amount := Host.JString "abc";
     td_type := "expense"; td_category := Some "Food";
     td_date := Some "2024-01-05" |}.

Definition snack : TransactionData :=
  {| td_description := Some "Snack"; td_amount := Host.JString "5";
     td_type := "expense"; td_category := Some "Food";
     td_date := Some "2024-01-25" |}.

Definition with_income : DataManager :=
  snd (TS.setMonthlyIncome "2024-01" (Num.of_Z 5000) (world "1") registered).

Definition with_groceries : DataManager :=
  snd (addTransaction groceries (world "2") with_income).

Definition with_freelance : DataManager :=
  snd (addTransaction freelance (world "3") with_groceries).

Definition rec_groceries : Transaction := newTransaction groceries (world "2").
Definition rec_freelance : Transaction := newTransaction freelance (world "3").
Definition rec_snack : Transaction := newTransaction snack (world "4").
Definition rec_broken : Transaction := newTransaction broken (world "5").

(** The account of [with_income], as a value. *)
Definition ana_with_income : UserData :=
  set_financial (set_monthlyIncomes (<["2024-01" := Num.of_Z 5000]>))
    (createUserStructure (generateUserId "a@b.com") ana (world "0")).

(** The snack of the 25th is entered first, the groceries of the 15th
    after it. *)
Definition with_snack : DataManager :=
  snd (addTransaction snack (world "4") with_income).

Definition snack_then_groceries : DataManager :=
  snd (addTransaction groceries (world "2") with_snack).

(** The snack is entered first, the transaction without a number after
    it. *)
Definition snack_then_broken : DataManager :=
  snd (addTransaction broken (world "5") with_snack).

Definition logged_out : DataManager := logout (world "6") with_freelance.

(** Two expenses whose categories are names of members of
    [Object.prototype]. *)
Definition fees : TransactionData :=
  {| td_description := Some "Fees"; td_amount := Host.JString "5";
     td_type := "expense"; td_category := Some "constructor";
     td_date := Some "2024-01-10" |}.

Definition tolls : TransactionData :=
  {| td_description := Some "Tolls"; td_amount := Host.JString "7";
     td_type := "expense"; td_category := Some "__proto__";
     td_date := Some "2024-01-11" |}.

Definition with_fees : DataManager :=
  snd (addTransaction tolls (world "8")
         (snd (addTransaction fees (world "7") with_income))).



(** December 2023, in which nothing is recorded, against January 2024. *)
Definition december_vs_january : option Comparison :=
  TS.comparePeriods getTime "2023-12" "2024-01" with_freelance.

End Sample.

(* ===================================================================== *)
(** * The vocabulary of the specification *)
(* ===================================================================== *)

Module Spec.

Import DM.

(** The raw transaction sequence of the active account. *)
Definition raw (st : DataManager) : option (list Transaction) :=
  transactions ∘ financial <$> getCurrentUser st.

(** The map of fixed incomes of the active account. *)
Definition incomes (st : DataManager) : option (gmap string number) :=
  monthlyIncomes ∘ financial <$> getCurrentUser st.

(** The transaction list the period index reads. *)
Definition stored (st : DataManager) : list Transaction :=
  match getCurrentUser st with
  | Some u => transactions (financial u)
  | None => []
  end.

(** The leading [n] characters of a string. *)
Fixpoint leading (n : nat) (s : string) : string :=
  match n, s with
  | S n', String c r => String c (leading n' r)
  | _, _ => EmptyString
  end.

(** A period key [YYYY-MM]: four digits, a dash, two digits. *)
Definition is_period_key (s : string) : bool :=
  match s with
  | String y1 (String y2 (String y3 (String y4
      (String h (String m1 (String m2 EmptyString)))))) =>
      Str.is_digit y1 && Str.is_digit y2 && Str.is_digit y3 && Str.is_digit y4
      && Ascii.eqb h "-" && Str.is_digit m1 && Str.is_digit m2
  | _ => false
  end.

(** The period filter in the words of the specification: the
    transactions whose date has the key as its leading 7 characters, in
    the order of the list. *)
Definition periodFilter (key : string) (l : list Transaction) : list Transaction :=
  List.filter (fun t => String.eqb (leading 7 (date t)) key) l.

Definition amounts (l : list Transaction) : list number := map amount l.

Definition has_category (c : string) (t : Transaction) : bool :=
  String.eqb (category t) c.

(** The expense transactions of [l] that name the category [c]. *)
Definition expensesIn (c : string) (l : list Transaction) : list Transaction :=
  List.filter (has_category c) (List.filter is_expense l).


(** [x || 0] leaves [x] as it is: [x] is neither [NaN] nor [-0]. *)
Definition kept (x : number) : bool :=
  match x with
  | S754_nan | S754_zero true => false
  | _ => true
  end.

(** The total the code holds for one category after the amounts [l] of
    that category, from the total [start]: [(total || 0) + amount] at
    every amount. *)
Definition runningTotal (start : number) (l : list number) : number :=
  fold_left (fun total x => Num.add (Num.or_else total Num.zero) x) l start.

(** Adding [l] to [s] from left to right, no total before the last is
    [NaN] or [-0]. *)
Fixpoint steady_from (s : number) (l : list number) : bool :=
  match l with
  | [] => true
  | x :: r =>
      match r with
      | [] => true
      | _ :: _ => kept (Num.add s x) && steady_from (Num.add s x) r
      end
  end.


Section Dates.

Variable getTime : string -> option Z.

Definition time (t : Transaction) : option Z := getTime (date t).

(** [a] is dated no earlier than [b]; both dates are valid. *)
Definition not_before (a b : Transaction) : Prop :=
  match time a, time b with
  | Some x, Some y => (y <= x)%Z
  | _, _ => False
  end.

Definition same_time (k : option Z) (t : Transaction) : bool :=
  match k, time t with
  | Some x, Some y => (x =? y)%Z
  | None, None => true
  | _, _ => false
  end.

(** Sorted by date, the latest first. *)
Definition date_descending (l : list Transaction) : Prop :=
  StronglySorted not_before l.

(** [l'] keeps the transactions of one date in the order they have
    in [l]. *)
Definition keeps_order_of_ties (l l' : list Transaction) : Prop :=
  forall k, List.filter (same_time k) l' = List.filter (same_time k) l.

End Dates.

End Spec.

(* ===================================================================== *)
(** * The main screen: the handlers that call the manager *)
(* ===================================================================== *)

Module UI.

Import DM.

(** The form of [AccessibilityEnhancedMainScreen]; every field is the
    text of an input. *)
Record FormData := {
  fd_description : string;
  fd_amount : string;
  fd_type : string;
  fd_category : string
}.

(** The form after a reset. *)
Definition emptyForm : FormData :=
  {| fd_description := ""; fd_amount := ""; fd_type := "expense";
     fd_category := "Outros" |}.

(** [{ ...formData, date: currentPeriod + '-01' }] *)
Definition transactionDataOf (formData : FormData) (currentPeriod : string)
  : TransactionData :=
  {| td_description := Some (fd_description formData);
     td_amount := Host.JString (fd_amount formData);
     td_type := fd_type formData;
     td_category := Some (fd_category formData);
     td_date := Some (currentPeriod +:+ "-01") |}.

(** [handleAddTransaction]: what it does to the form and to the manager
    (the announcements to the screen reader and the refresh of the
    summary, which is read again from the manager, are left out). *)
Definition handleAddTransaction (formData : FormData) (currentPeriod : string)
    (w : World) (st : DataManager) : FormData * DataManager :=
  match fd_description formData, fd_amount formData with
  | EmptyString, _ => (formData, st)
  | _, EmptyString => (formData, st)
  | _, _ =>
      let '(transaction, st') :=
        addTransaction (transactionDataOf formData currentPeriod) w st in
      match transaction with
      | Some _ => (emptyForm, st')
      | None => (formData, st')
      end
  end.

(** [handleMonthlyIncomeChange]: [parseFloat(e.target.value) || 0] is
    handed to [setMonthlyIncome], here the one of [DataManager.ts]. *)
Definition handleMonthlyIncomeChange (value : string) (currentPeriod : string)
    (w : World) (st : DataManager) : DataManager :=
  let amount := Num.or_else (Host.parseFloat_string value) Num.zero in
  snd (TS.setMonthlyIncome currentPeriod amount w st).

(** The same handler over [DataManager.js], which is given the Number. *)
Definition handleMonthlyIncomeChange_js (value : string) (currentPeriod : string)
    (w : World) (st : DataManager) : DataManager :=
  let amount := Num.or_else (Host.parseFloat_string value) Num.zero in
  snd (JS.setMonthlyIncome currentPeriod (Host.JNumber amount) w st).

End UI.

(* ===================================================================== *)
(** * Runs of the manager *)
(* ===================================================================== *)

Module Run.

Import DM.

(** A call of a method that may write. *)
Inductive Call :=
| CallRegister (userData : RegisterData)
| CallLogin (email password : string)
| CallLogout
| CallSetIncome (yearMonth : string) (amount : number)       (* DataManager.ts *)
| CallSetIncomeJS (yearMonth : string) (amount : Host.jsval) (* DataManager.js *)
| CallAdd (transactionData : TransactionData)
| CallRemove (transactionId : string)
| CallAddCategory (categoryName : string).

(** The manager after the call. *)
Definition exec (c : Call) (w : World) (st : DataManager) : DataManager :=
  match c with
  | CallRegister userData => snd (registerUser userData w st)
  | CallLogin e p => snd (loginUser e p w st)
  | CallLogout => logout w st
  | CallSetIncome p x => snd (TS.setMonthlyIncome p x w st)
  | CallSetIncomeJS p v => snd (JS.setMonthlyIncome p v w st)
  | CallAdd td => snd (addTransaction td w st)
  | CallRemove tid => snd (removeTransaction tid w st)
  | CallAddCategory n => snd (addCategory n w st)
  end.

(** The calls that work on the ledger of the current account. *)
Definition on_ledger (c : Call) : bool :=
  match c with
  | CallSetIncome _ _ | CallSetIncomeJS _ _ | CallAdd _ | CallRemove _
  | CallAddCategory _ => true
  | _ => false
  end.

(** The manager a page starts with when the storage is empty; both
    constructors build the same. *)
Definition start : DataManager := TS.init None.

(** The calls of a session, each with what the host answers, in order. *)
Definition run (calls : list (Call * World)) (st : DataManager) : DataManager :=
  fold_left (fun s cw => exec (fst cw) (snd cw) s) calls st.

(** An account as the manager keeps it under the key [k]. *)
Definition account_ok (k : string) (u : UserData) : Prop :=
  user_id u = k
  /\ generateUserId (email (profile u)) = k
  /\ NoDup (categories (financial u))
  /\ (exists added, categories (financial u) = (defaultCategories ++ added)%list)
  /\ (forall p x, monthlyIncomes (financial u) !! p = Some x ->
                  Num.or_else x Num.zero = x).

(** What every run keeps. *)
Definition consistent (st : DataManager) : Prop :=
  currentUserId (data st) = currentUser st
  /\ (forall k, currentUser st = Some k -> is_Some (users (data st) !! k))
  /\ (forall k u, users (data st) !! k = Some u -> account_ok k u)
  /\ version (data st) = "2.0.0".

End Run.

(* ===================================================================== *)
(** * The text in the storage *)
(* ===================================================================== *)

(** [saveData] writes [JSON.stringify(this.data)] and [loadData] reads it
    with [JSON.parse]. The text is kept here as the tree of what it
    holds. *)
Module Json.

(** A number of the text, or [null]. *)
Inductive jnumber :=
| JNull
| JNum (x : number).

(** An element of an array of anything. *)
Inductive jvalue :=
| JVNull
| JVString (s : string)
| JVNumber (x : number).

Record JTransaction := {
  j_id : string;
  j_description : option string;    (* no key when the field is [undefined] *)
  j_amount : jnumber;
  j_type : string;
  j_category : string;
  j_date : string;
  j_createdAt : string
}.

Record JFinancial := {
  j_monthlyIncomes : gmap string jnumber;
  j_transactions : list JTransaction;
  j_categories : list string;
  j_goals : list jvalue
}.

Record JUserData := {
  j_user_id : string;
  j_profile : UserProfile;
  j_financial : JFinancial;
  j_settings : Settings
}.

Record JAppData := {
  j_users : gmap string JUserData;
  j_currentUserId : option string;  (* [null] when nobody is logged in *)
  j_version : string
}.

(** How [JSON.stringify] writes a Number: [NaN] and the infinities as
    [null], [-0] as [0], and any other number as the decimal that reads
    back as that number. *)
Definition of_number (x : number) : jnumber :=
  match x with
  | S754_nan | S754_infinity _ => JNull
  | S754_zero _ => JNum (S754_zero false)
  | S754_finite _ _ _ => JNum x
  end.

(** Within an array [undefined] is written as [null]. *)
Definition of_value (v : Host.jsval) : jvalue :=
  match v with
  | Host.JUndefined => JVNull
  | Host.JString s => JVString s
  | Host.JNumber x =>
      match of_number x with
      | JNull => JVNull
      | JNum y => JVNumber y
      end
  end.

Definition of_transaction (t : Transaction) : JTransaction :=
  {| j_id := id t; j_description := description t;
     j_amount := of_number (amount t); j_type := type t;
     j_category := category t; j_date := date t;
     j_createdAt := createdAt t |}.

Definition of_financial (f : Financial) : JFinancial :=
  {| j_monthlyIncomes := of_number <$> monthlyIncomes f;
     j_transactions := map of_transaction (transactions f);
     j_categories := categories f;
     j_goals := map of_value (goals f) |}.

Definition of_user (u : UserData) : JUserData :=
  {| j_user_id := user_id u; j_profile := profile u;
     j_financial := of_financial (financial u);
     j_settings := settings u |}.

(** [JSON.stringify(data)] *)
Definition stringify (d : AppData) : JAppData :=
  {| j_users := of_user <$> users d;
     j_currentUserId := currentUserId d;
     j_version := version d |}.

(** The text under [STORAGE_KEY]. *)
Definition stored (st : DataManager) : option JAppData :=
  stringify <$> localStorage st.

(** A number the text carries as it is. *)
Definition stable_number (x : number) : bool :=
  match x with
  | S754_zero false | S754_finite _ _ _ => true
  | _ => false
  end.

Definition stable_value (v : Host.jsval) : bool :=
  match v with
  | Host.JUndefined => false
  | Host.JString _ => true
  | Host.JNumber x => stable_number x
  end.

Definition stable_financial (f : Financial) : Prop :=
  map_Forall (fun _ x => stable_number x = true) (monthlyIncomes f)
  /\ Forall (fun t => stable_number (amount t) = true) (transactions f)
  /\ Forall (fun v => stable_value v = true) (goals f).

(** Data the text carries as they are: no amount and no income is [NaN],
    infinite or [-0]. *)
Definition stable (d : AppData) : Prop :=
  map_Forall (fun _ u => stable_financial (financial u)) (users d).

(** [d] is what [JSON.parse] returns for the text [b], for a text
    without [null] in the place of a number: the data without [NaN],
    infinity and [-0] whose text is [b]. *)
Definition reads (b : JAppData) (d : AppData) : Prop :=
  stable d /\ stringify d = b.

End Json.

(* ===================================================================== *)
(** * More sample data *)
(* ===================================================================== *)

Module Trace.

Import DM Run.

(** A host whose storage is full. *)
Definition full (n : string) : World :=
  {| toISOString := toISOString (Sample.world n);
     dateNow36 := dateNow36 (Sample.world n);
     random36 := random36 (Sample.world n);
     setItem_ok := false |}.

(** The calls that lead to [Sample.with_freelance]. *)
Definition january : list (Call * World) :=
  [ (CallRegister Sample.ana, Sample.world "0");
    (CallSetIncome "2024-01" (Num.of_Z 5000), Sample.world "1");
    (CallAdd Sample.groceries, Sample.world "2");
    (CallAdd Sample.freelance, Sample.world "3") ].

Definition bob : RegisterData := {| rd_name := "Bob"; rd_email := "bob@c.org" |}.

(** A second account is registered after Ana's January. *)
Definition two_accounts : DataManager :=
  snd (registerUser bob (Sample.world "8") Sample.with_freelance).

Definition filled : UI.FormData :=
  {| UI.fd_description := "Bus"; UI.fd_amount := "4.50";
     UI.fd_type := "expense"; UI.fd_category := "Transporte" |}.

End Trace.

(* ===================================================================== *)
(** * Facts about numbers *)
(* ===================================================================== *)

Module NumFacts.

Import Num.

Section Rounding.

Variables prec emax : Z.

Lemma shr_1_nonneg (mrs : shr_record) :
  (0 <= shr_m mrs)%Z -> (0 <= shr_m (shr_1 mrs))%Z.
Proof.
  destruct mrs as [m r s]; simpl.
  destruct m as [|[p|p|]|p]; simpl; lia.
Qed.

Lemma iter_pos_invariant {A : Type} (P : A -> Prop) (f : A -> A) :
  (forall x, P x -> P (f x)) ->
  forall (n : positive) (x : A), P x -> P (SpecFloat.iter_pos f n x).
Proof.
  intros Hf n; induction n as [n IH|n IH|]; intros x Hx; simpl; auto.
Qed.

Lemma shr_nonneg (mrs : shr_record) (e n : Z) :
  (0 <= shr_m mrs)%Z -> (0 <= shr_m (fst (shr mrs e n)))%Z.
Proof.
  intros H; destruct n; simpl; auto.
  apply (iter_pos_invariant (fun x => 0 <= shr_m x)%Z); auto using shr_1_nonneg.
Qed.

Lemma shr_fexp_nonneg (m e : Z) (l : location) :
  (0 <= m)%Z -> (0 <= shr_m (fst (shr_fexp prec emax m e l)))%Z.
Proof.
  intros H; unfold shr_fexp; apply shr_nonneg.
  destruct l as [|[| |]]; simpl; assumption.
Qed.

Lemma round_nearest_even_nonneg (m : Z) (l : location) :
  (0 <= m)%Z -> (0 <= round_nearest_even m l)%Z.
Proof.
  intros H; destruct l as [|[| |]]; simpl; try lia.
  destruct (Z.even m); lia.
Qed.

(** Rounding a magnitude keeps the sign it is given and never makes a
    [NaN]. *)
Lemma binary_round_aux_sign (sx : bool) (mx ex : Z) (lx : location) :
  (0 <= mx)%Z ->
  match binary_round_aux prec emax sx mx ex lx with
  | S754_zero s | S754_infinity s | S754_finite s _ _ => s = sx
  | S754_nan => False
  end.
Proof.
  intros H; unfold binary_round_aux.
  pose proof (shr_fexp_nonneg mx ex lx H) as H1.
  destruct (shr_fexp prec emax mx ex lx) as [mrs' e']; simpl in H1.
  pose proof (shr_fexp_nonneg
                (round_nearest_even (shr_m mrs') (loc_of_shr_record mrs'))
                e' loc_Exact
                (round_nearest_even_nonneg _ _ H1)) as H2.
  destruct (shr_fexp prec emax _ e' loc_Exact) as [mrs'' e'']; simpl in H2.
  destruct (shr_m mrs'') as [|m|m]; [reflexivity| |lia].
  destruct (e'' <=? emax - prec)%Z; reflexivity.
Qed.

Lemma binary_round_sign (sx : bool) (mx : positive) (ex : Z) :
  match binary_round prec emax sx mx ex with
  | S754_zero s | S754_infinity s | S754_finite s _ _ => s = sx
  | S754_nan => False
  end.
Proof.
  unfold binary_round.
  destruct (shl_align mx ex _) as [mz ez].
  apply binary_round_aux_sign; lia.
Qed.

End Rounding.

Lemma plus_or_else (x : number) : plus x = true -> or_else x zero = x.
Proof. destruct x as [[|]|[|]| |[|] m e]; simpl; try congruence; reflexivity. Qed.

Lemma add_plus (x y : number) :
  plus x = true -> nonneg y = true -> plus (add x y) = true.
Proof.
  destruct x as [[|]|[|]| |[|] mx ex]; simpl; try congruence;
    destruct y as [[|]|[|]| |[|] my ey]; simpl; try congruence; intros _ _.
  unfold add, SFadd; simpl.
  destruct (shl_align mx ex _) as [m1 e1], (shl_align my ey _) as [m2 e2]; simpl.
  pose proof (binary_round_sign prec emax false (m1 + m2) (Z.min ex ey)) as H.
  destruct (binary_round prec emax false (m1 + m2) (Z.min ex ey));
    simpl; try subst; try reflexivity; contradiction.
Qed.

Lemma add_comm (x y : number) : add x y = add y x.
Proof.
  destruct x as [[|]|[|]| |[|] mx ex], y as [[|]|[|]| |[|] my ey];
    try reflexivity; unfold add, SFadd;
    rewrite (Z.min_comm ey ex), Z.add_comm; reflexivity.
Qed.

(** [x > 0] fails at both zeros. *)
Lemma gt_zero_false (x : number) : is_zero x = true -> gt x zero = false.
Proof. destruct x as [[|]|[|]| |[|] m e]; simpl; congruence || reflexivity. Qed.

Lemma or_else_not_NaN (x : number) : isNaN (or_else x zero) = false.
Proof. destruct x as [[|]|[|]| |[|] m e]; reflexivity. Qed.

End NumFacts.

(* ===================================================================== *)
(** * Facts about the store *)
(* ===================================================================== *)

Module StoreFacts.

Import DM.

Lemma saveData_fst (w : World) (st : DataManager) :
  fst (saveData w st) = setItem_ok w.
Proof. unfold saveData; destruct (setItem_ok w); reflexivity. Qed.

Lemma saveData_data (w : World) (st : DataManager) :
  data (snd (saveData w st)) = data st.
Proof. unfold saveData; destruct (setItem_ok w); reflexivity. Qed.

Lemma saveData_currentUser (w : World) (st : DataManager) :
  currentUser (snd (saveData w st)) = currentUser st.
Proof. unfold saveData; destruct (setItem_ok w); reflexivity. Qed.

Lemma saveData_getCurrentUser (w : World) (st : DataManager) :
  getCurrentUser (snd (saveData w st)) = getCurrentUser st.
Proof.
  unfold getCurrentUser.
  rewrite saveData_currentUser, saveData_data; reflexivity.
Qed.

(** A write that succeeds leaves the whole of [data] in the storage. *)
Lemma saveData_persists (w : World) (st : DataManager) :
  setItem_ok w = true ->
  localStorage (snd (saveData w st)) = Some (data (snd (saveData w st))).
Proof. unfold saveData; intros ->; reflexivity. Qed.

(** A write through [currentUser] is seen by the next read. *)
Lemma getCurrentUser_update (f : UserData -> UserData) (st : DataManager) :
  getCurrentUser (update_currentUser f st) = f <$> getCurrentUser st.
Proof.
  unfold getCurrentUser, update_currentUser.
  destruct (currentUser st) as [k|] eqn:E; simpl; rewrite ?E; [|reflexivity].
  rewrite lookup_alter_eq; reflexivity.
Qed.

Lemma findIndex_None (tid : string) (l : list Transaction) :
  findIndex tid l = None <-> Forall (fun t => id t <> tid) l.
Proof.
  induction l as [|t r IH]; simpl.
  - split; [constructor | reflexivity].
  - destruct (String.eqb_spec (id t) tid) as [E|E].
    + split; [discriminate|].
      intros H; inversion H; contradiction.
    + destruct (findIndex tid r) as [i|].
      * split; [discriminate|].
        intros H; inversion H as [|? ? _ H']; apply IH in H'; discriminate.
      * split; [|reflexivity].
        intros _; constructor; [assumption | apply IH; reflexivity].
Qed.

(** [findIndex] stops at the first transaction that has the id. *)
Lemma findIndex_first (tid : string) (l1 l2 : list Transaction) (t : Transaction) :
  Forall (fun x => id x <> tid) l1 -> id t = tid ->
  findIndex tid (l1 ++ t :: l2) = Some (length l1).
Proof.
  intros H Ht; induction H as [|x r Hx _ IH]; simpl.
  - rewrite (proj2 (String.eqb_eq _ _) Ht); reflexivity.
  - rewrite (proj2 (String.eqb_neq _ _) Hx), IH; reflexivity.
Qed.

Lemma splice1_middle (l1 l2 : list Transaction) (t : Transaction) :
  splice1 (length l1) (l1 ++ t :: l2) = (l1 ++ l2)%list.
Proof.
  unfold splice1.
  rewrite take_app_length.
  replace (S (length l1)) with (length (l1 ++ [t])%list)
    by (rewrite length_app; simpl; lia).
  replace (l1 ++ t :: l2)%list with ((l1 ++ [t]) ++ l2)%list
    by (rewrite <- app_assoc; reflexivity).
  rewrite drop_app_length; reflexivity.
Qed.

End StoreFacts.

(* ===================================================================== *)
(** * Facts about strings *)
(* ===================================================================== *)

Module StrFacts.

Import Spec.

Lemma substring_leading (n : nat) (s : string) :
  Str.substring 0 n s = leading n s.
Proof.
  unfold Str.substring; simpl; rewrite Nat.sub_0_r.
  revert s; induction n as [|n IH]; intros [|c r]; simpl; try reflexivity.
  rewrite IH; reflexivity.
Qed.

(** [startsWith] compares the leading characters, as many as the prefix
    has. *)
Lemma startsWith_leading (p s : string) :
  Str.startsWith p s = String.eqb (leading (String.length p) s) p.
Proof.
  unfold Str.startsWith.
  revert s; induction p as [|a p IH]; intros [|b s]; simpl; try reflexivity.
  rewrite <- IH.
  destruct (ascii_dec a b) as [->|Hne].
  - rewrite Ascii.eqb_refl; reflexivity.
  - rewrite (proj2 (Ascii.eqb_neq b a)); [reflexivity | congruence].
Qed.

Lemma digit_not_space (c : ascii) :
  Str.is_digit c = true -> Str.is_space c = false.
Proof.
  destruct c as [[|] [|] [|] [|] [|] [|] [|] [|]];
    vm_compute; congruence.
Qed.

Lemma is_period_key_length (k : string) :
  is_period_key k = true -> String.length k = 7%nat.
Proof.
  destruct k as [|y1 [|y2 [|y3 [|y4 [|h [|m1 [|m2 [|z r]]]]]]]];
    simpl; congruence.
Qed.

(** A period key has no white space to trim. *)
Lemma trim_period_key (k : string) :
  is_period_key k = true -> Str.trim k = k.
Proof.
  destruct k as [|y1 [|y2 [|y3 [|y4 [|h [|m1 [|m2 [|z r]]]]]]]];
    intros H; cbv beta iota delta [is_period_key] in H; try discriminate H.
  do 6 (apply andb_prop in H; destruct H as [H ?]).
  assert (Hy1 : Str.is_space y1 = false) by auto using digit_not_space.
  assert (Hm2 : Str.is_space m2 = false) by auto using digit_not_space.
  unfold Str.trim.
  cbn [Str.trimStart]; rewrite Hy1.
  unfold Str.trimEnd; cbn [Str.trimEnd_aux]; rewrite Hm2; reflexivity.
Qed.

End StrFacts.

(* ===================================================================== *)
(** * Facts about the summary *)
(* ===================================================================== *)

Module SummaryFacts.

Import DM Spec NumFacts.


(** ** The fold over the categories *)


Lemma plus_kept (x : number) : Num.plus x = true -> kept x = true.
Proof. destruct x as [[|]|[|]| |[|] m e]; try discriminate; reflexivity. Qed.



(** Amounts that are not negative keep every total at [+0] or above. *)
Lemma nonneg_steady (l : list number) :
  forall s,
    Num.plus s = true -> Forall (fun x => Num.nonneg x = true) l ->
    steady_from s l = true.
Proof.
  induction l as [|x r IH]; intros s Hs Hl; [reflexivity|].
  destruct r as [|y r']; [reflexivity|].
  change (kept (Num.add s x) && steady_from (Num.add s x) (y :: r') = true).
  inversion Hl as [|? ? Hx Hr]; subst.
  assert (Hp : Num.plus (Num.add s x) = true) by (apply add_plus; assumption).
  apply andb_true_intro; split; [apply plus_kept; exact Hp | apply IH; assumption].
Qed.

(** ** The fold over the categories *)

Lemma addToCategory_lookup (acc : gmap string jsprop) (t : Transaction) (c : string) :
  addToCategory acc t !! c =
    if has_category c t
    then match acc !! c with
         | Some (PNumber x) =>
             Some (PNumber (Num.add (Num.or_else x Num.zero) (amount t)))
         | Some PText => Some PText
         | None =>
             if String.eqb c "__proto__" then None
             else if inherited c then Some PText
             else Some (PNumber (Num.add Num.zero (amount t)))
         end
    else acc !! c.
Proof.
  unfold addToCategory, has_category.
  destruct (String.eqb_spec (category t) c) as [->|Hne].
  - destruct (acc !! c) as [[x|]|] eqn:E; rewrite ?lookup_insert_eq; try reflexivity.
    destruct (String.eqb c "__proto__"); [exact E|].
    destruct (inherited c); rewrite lookup_insert_eq; reflexivity.
  - destruct (acc !! category t) as [[x|]|];
      rewrite ?lookup_insert_ne by assumption; try reflexivity.
    destruct (String.eqb (category t) "__proto__"); [reflexivity|].
    destruct (inherited (category t)); rewrite lookup_insert_ne by assumption;
      reflexivity.
Qed.

Lemma inherited_proto (c : string) :
  inherited c = false -> String.eqb c "__proto__" = false.
Proof.
  intros H; destruct (String.eqb_spec c "__proto__") as [->|]; [|reflexivity].
  vm_compute in H; discriminate.
Qed.

(** For a category that is not the name of an inherited member the fold
    holds the running total of the category's amounts, in the order of
    the list. *)
Lemma fold_addToCategory (c : string) (l : list Transaction) :
  inherited c = false ->
  forall acc : gmap string jsprop,
    fold_left addToCategory l acc !! c =
      match acc !! c with
      | Some (PNumber x) =>
          Some (PNumber (runningTotal x (amounts (List.filter (has_category c) l))))
      | Some PText => Some PText
      | None =>
          match List.filter (has_category c) l with
          | [] => None
          | e => Some (PNumber (runningTotal Num.zero (amounts e)))
          end
      end.
Proof.
  intros Hc; induction l as [|t r IH]; intros acc; cbn [fold_left List.filter].
  - destruct (acc !! c) as [[x|]|]; reflexivity.
  - rewrite IH, addToCategory_lookup.
    destruct (has_category c t) eqn:Ec.
    + destruct (acc !! c) as [[x|]|] eqn:E; try reflexivity.
      rewrite (inherited_proto c Hc), Hc; reflexivity.
    + reflexivity.
Qed.

(** The categories the fold knows, whatever the amounts: those it
    started with and those of the transactions it has seen, [__proto__]
    apart, for which no property is ever made. *)
Lemma fold_addToCategory_None (l : list Transaction) :
  forall (acc : gmap string jsprop) (c : string),
    fold_left addToCategory l acc !! c = None
    <-> acc !! c = None
        /\ (List.filter (has_category c) l = [] \/ c = "__proto__").
Proof.
  induction l as [|t r IH]; intros acc c; cbn [fold_left List.filter].
  - tauto.
  - rewrite IH, addToCategory_lookup.
    destruct (has_category c t); [|tauto].
    destruct (acc !! c) as [[x|]|] eqn:E.
    + split; [intros [H _]; discriminate | intros [H _]; discriminate].
    + split; [intros [H _]; discriminate | intros [H _]; discriminate].
    + destruct (String.eqb_spec c "__proto__") as [->|Hne].
      * split; [intros _; split; [reflexivity | right; reflexivity] |];
          intros _; split; [reflexivity | right; reflexivity].
      * destruct (inherited c);
          (split; [intros [H _]; discriminate | intros [_ [H|H]]]);
          try discriminate; contradiction.
Qed.

(** Under the name of an inherited member the fold never holds a
    number. *)
Lemma fold_addToCategory_inherited (c : string) (l : list Transaction) :
  inherited c = true ->
  forall acc : gmap string jsprop,
    (forall x, acc !! c <> Some (PNumber x)) ->
    forall x, fold_left addToCategory l acc !! c <> Some (PNumber x).
Proof.
  intros Hc; induction l as [|t r IH]; intros acc Hacc; cbn [fold_left];
    [exact Hacc|].
  apply IH; intros x; rewrite addToCategory_lookup.
  destruct (has_category c t); [|apply Hacc].
  destruct (acc !! c) as [[y|]|] eqn:E; [destruct (Hacc y); reflexivity|discriminate|].
  destruct (String.eqb c "__proto__"); [discriminate|].
  rewrite Hc; discriminate.
Qed.

Lemma groupByCategory_runningTotal (l : list Transaction) (c : string) :
  inherited c = false ->
  groupByCategory (List.filter is_expense l) !! c
  = match expensesIn c l with
    | [] => None
    | e => Some (PNumber (runningTotal Num.zero (amounts e)))
    end.
Proof.
  intros Hc; unfold groupByCategory, expensesIn.
  rewrite (fold_addToCategory c _ Hc), lookup_empty; reflexivity.
Qed.


(** ** The sort *)

Section Sorting.

Variable getTime : string -> option Z.

Local Abbreviation cmp := (TS.byDateDesc getTime).

Lemma insert_by_perm (x : Transaction) (l : list Transaction) :
  Permutation (insert_by cmp x l) (x :: l).
Proof.
  induction l as [|y r IH]; simpl; [reflexivity|].
  destruct (cmp x y <=? 0)%Z; [reflexivity|].
  rewrite IH; apply perm_swap.
Qed.

Lemma sort_perm (l : list Transaction) : Permutation (sort cmp l) l.
Proof.
  induction l as [|x r IH]; simpl; [reflexivity|].
  rewrite insert_by_perm, IH; reflexivity.
Qed.

(** The transactions [insert_by] steps over are dated after [x]. *)
Lemma insert_by_ties (k : option Z) (x : Transaction) (l : list Transaction) :
  List.filter (same_time getTime k) (insert_by cmp x l)
  = List.filter (same_time getTime k) (x :: l).
Proof.
  induction l as [|y r IH]; [reflexivity|].
  cbn [insert_by].
  destruct (cmp x y <=? 0)%Z eqn:E; [reflexivity|].
  cbn [List.filter] in *; rewrite IH.
  apply Z.leb_gt in E.
  unfold TS.byDateDesc in E; unfold same_time, time.
  destruct (getTime (date y)) as [ty|], (getTime (date x)) as [tx|],
    k as [k|]; try lia; try reflexivity.
  destruct (k =? tx)%Z eqn:E1, (k =? ty)%Z eqn:E2; try reflexivity.
  apply Z.eqb_eq in E1, E2; lia.
Qed.

Lemma sort_ties (l : list Transaction) :
  keeps_order_of_ties getTime l (sort cmp l).
Proof.
  intros k; induction l as [|x r IH]; [reflexivity|].
  cbn [sort fold_right]; rewrite insert_by_ties.
  cbn [List.filter]; fold (sort cmp r); rewrite IH; reflexivity.
Qed.

Lemma not_before_trans (a b c : Transaction) :
  not_before getTime a b -> not_before getTime b c -> not_before getTime a c.
Proof.
  unfold not_before.
  destruct (time getTime a), (time getTime b), (time getTime c);
    try tauto; lia.
Qed.

Lemma insert_by_sorted (x : Transaction) (l : list Transaction) :
  is_Some (getTime (date x)) ->
  Forall (fun t => is_Some (getTime (date t))) l ->
  date_descending getTime l ->
  date_descending getTime (insert_by cmp x l).
Proof.
  intros [tx Hx] Hv Hs; induction Hs as [|y r Hr IH Hy]; simpl.
  - repeat constructor.
  - inversion Hv as [|? ? [ty Hty] Hv']; subst.
    destruct (cmp x y <=? 0)%Z eqn:E.
    + apply Z.leb_le in E.
      assert (Hxy : not_before getTime x y).
      { unfold not_before, time; unfold TS.byDateDesc in E.
        rewrite Hx, Hty in *; lia. }
      constructor; [constructor; assumption|].
      constructor; [assumption|].
      eapply Forall_impl; [exact Hy|].
      intros z Hz; eapply not_before_trans; eassumption.
    + apply Z.leb_gt in E.
      assert (Hyx : not_before getTime y x).
      { unfold not_before, time; unfold TS.byDateDesc in E.
        rewrite Hx, Hty in *; lia. }
      constructor; [apply IH; assumption|].
      eapply Permutation_Forall; [symmetry; apply insert_by_perm|].
      constructor; assumption.
Qed.

Lemma sort_sorted (l : list Transaction) :
  Forall (fun t => is_Some (getTime (date t))) l ->
  date_descending getTime (sort cmp l).
Proof.
  induction 1 as [|x r Hx Hr IH]; simpl; [constructor|].
  apply insert_by_sorted; [assumption| |assumption].
  eapply Permutation_Forall; [symmetry; apply sort_perm | assumption].
Qed.

(** Two arrangements of the same transactions that are both sorted by
    date and have the transactions of each date in the same order are
    the same list. *)
Lemma sorted_unique (l1 : list Transaction) :
  forall l2,
    Forall (fun t => is_Some (getTime (date t))) l1 ->
    Permutation l1 l2 ->
    date_descending getTime l1 -> date_descending getTime l2 ->
    (forall k, List.filter (same_time getTime k) l1
               = List.filter (same_time getTime k) l2) ->
    l1 = l2.
Proof.
  induction l1 as [|a r1 IH]; intros l2 Hv Hp Hs1 Hs2 Ht.
  - apply Permutation_nil in Hp; congruence.
  - destruct l2 as [|b r2];
      [symmetry in Hp; apply Permutation_nil in Hp; discriminate|].
    inversion Hv as [|? ? [ta Ha] Hv1]; subst.
    inversion Hs1 as [|? ? Hr1 Ha1]; subst.
    inversion Hs2 as [|? ? Hr2 Hb2]; subst.
    assert (Hab : a = b).
    { assert (Hb : In b (a :: r1))
        by (eapply Permutation_in; [symmetry; exact Hp | left; reflexivity]).
      assert (Ha' : In a (b :: r2))
        by (eapply Permutation_in; [exact Hp | left; reflexivity]).
      assert (Hk : same_time getTime (Some ta) a = true)
        by (unfold same_time, time; rewrite Ha; apply Z.eqb_refl).
      assert (Hkb : same_time getTime (Some ta) b = true).
      { destruct Hb as [<-|Hb]; [exact Hk|].
        destruct Ha' as [->|Ha']; [exact Hk|].
        rewrite List.Forall_forall in Ha1, Hb2.
        specialize (Ha1 _ Hb); specialize (Hb2 _ Ha').
        unfold not_before, same_time, time in *; rewrite Ha in *.
        destruct (getTime (date b)) as [tb|]; [|contradiction].
        apply Z.eqb_eq; lia. }
      specialize (Ht (Some ta)); cbn [List.filter] in Ht.
      rewrite Hk, Hkb in Ht; congruence. }
    subst b; f_equal.
    apply IH; [assumption | eapply Permutation_cons_inv; exact Hp
               | assumption | assumption |].
    intros k; specialize (Ht k); cbn [List.filter] in Ht.
    destruct (same_time getTime k a); congruence.
Qed.

(** With valid dates the list [sort] computes is the only arrangement a
    stable sort by date can give. *)
Lemma sort_unique (l l' : list Transaction) :
  Forall (fun t => is_Some (getTime (date t))) l ->
  Permutation l' l ->
  date_descending getTime l' ->
  keeps_order_of_ties getTime l l' ->
  l' = sort cmp l.
Proof.
  intros Hv Hp Hs Ht; apply sorted_unique.
  - eapply Permutation_Forall; [symmetry; exact Hp | exact Hv].
  - rewrite Hp; symmetry; apply sort_perm.
  - exact Hs.
  - apply sort_sorted; exact Hv.
  - intros k; rewrite (Ht k); symmetry; apply sort_ties.
Qed.

End Sorting.

End SummaryFacts.

(* ===================================================================== *)
(** * Facts about the text in the storage *)
(* ===================================================================== *)

Module JsonFacts.

Import Json.

Lemma of_number_inj (x y : number) :
  stable_number x = true -> stable_number y = true ->
  of_number x = of_number y -> x = y.
Proof.
  destruct x as [[|]|[|]| |sx mx ex], y as [[|]|[|]| |sy my ey]; cbn;
    intros; try discriminate; congruence.
Qed.

Lemma of_value_inj (v w : Host.jsval) :
  stable_value v = true -> stable_value w = true ->
  of_value v = of_value w -> v = w.
Proof.
  destruct v as [|s|[[|]|[|]| |sx mx ex]], w as [|s'|[[|]|[|]| |sy my ey]]; cbn;
    intros; try discriminate; congruence.
Qed.

Lemma of_transaction_inj (t1 t2 : Transaction) :
  stable_number (amount t1) = true -> stable_number (amount t2) = true ->
  of_transaction t1 = of_transaction t2 -> t1 = t2.
Proof.
  destruct t1 as [i1 d1 a1 y1 c1 e1 r1], t2 as [i2 d2 a2 y2 c2 e2 r2].
  unfold of_transaction; cbn [id description amount type category date createdAt].
  intros H1 H2 [= Ei Ed Ea Ey Ec Ee Er]; subst.
  f_equal; apply of_number_inj; assumption.
Qed.

Lemma map_inj_Forall {A B : Type} (f : A -> B) (P : A -> Prop) :
  (forall x y, P x -> P y -> f x = f y -> x = y) ->
  forall l1 l2, Forall P l1 -> Forall P l2 -> map f l1 = map f l2 -> l1 = l2.
Proof.
  intros Hf; induction l1 as [|x r IH]; intros [|y r'] H1 H2 E;
    try discriminate; [reflexivity|].
  inversion H1; inversion H2; subst; injection E as Ex Er.
  f_equal; [apply Hf | apply IH]; assumption.
Qed.

Lemma fmap_inj_Forall {A B : Type} (f : A -> B) (P : A -> Prop) :
  (forall x y, P x -> P y -> f x = f y -> x = y) ->
  forall m1 m2 : gmap string A,
    map_Forall (fun _ => P) m1 -> map_Forall (fun _ => P) m2 ->
    f <$> m1 = f <$> m2 -> m1 = m2.
Proof.
  intros Hf m1 m2 H1 H2 E; apply map_eq; intros k.
  assert (Ek : (f <$> m1) !! k = (f <$> m2) !! k) by (rewrite E; reflexivity).
  rewrite !lookup_fmap in Ek.
  destruct (m1 !! k) as [x|] eqn:E1, (m2 !! k) as [y|] eqn:E2; cbn in Ek;
    try discriminate; [|reflexivity].
  injection Ek as Ek; f_equal; apply Hf; [exact (H1 k x E1) | exact (H2 k y E2) | exact Ek].
Qed.

Lemma of_financial_inj (f1 f2 : Financial) :
  stable_financial f1 -> stable_financial f2 ->
  of_financial f1 = of_financial f2 -> f1 = f2.
Proof.
  destruct f1 as [i1 t1 c1 g1], f2 as [i2 t2 c2 g2].
  unfold stable_financial, of_financial; cbn.
  intros (Hi1 & Ht1 & Hg1) (Hi2 & Ht2 & Hg2) [= Ei Et Ec Eg]; subst.
  f_equal.
  - eapply (fmap_inj_Forall of_number); [apply of_number_inj | | | exact Ei];
      assumption.
  - eapply (map_inj_Forall of_transaction); [ | | | exact Et];
      [intros x y; apply of_transaction_inj | assumption | assumption].
  - eapply (map_inj_Forall of_value); [apply of_value_inj | | | exact Eg];
      assumption.
Qed.

Lemma of_user_inj (u1 u2 : UserData) :
  stable_financial (financial u1) -> stable_financial (financial u2) ->
  of_user u1 = of_user u2 -> u1 = u2.
Proof.
  destruct u1 as [i1 p1 f1 s1], u2 as [i2 p2 f2 s2]; unfold of_user.
  cbn [user_id profile financial settings].
  intros H1 H2 E.
  pose proof (f_equal j_user_id E) as Ei; pose proof (f_equal j_profile E) as Ep.
  pose proof (f_equal j_financial E) as Ef; pose proof (f_equal j_settings E) as Es.
  cbn [j_user_id j_profile j_financial j_settings] in Ei, Ep, Ef, Es; subst.
  f_equal; apply of_financial_inj; assumption.
Qed.

(** Data without [NaN], infinity and [-0] are told by their text. *)
Lemma stringify_inj (d1 d2 : AppData) :
  stable d1 -> stable d2 -> stringify d1 = stringify d2 -> d1 = d2.
Proof.
  destruct d1 as [u1 c1 v1], d2 as [u2 c2 v2]; unfold stable, stringify; cbn.
  intros H1 H2 [= Eu Ec Ev]; subst; f_equal.
  eapply (fmap_inj_Forall of_user
            (fun u => stable_financial (financial u)));
    [intros x y; apply of_user_inj | | | exact Eu]; assumption.
Qed.

(** What [JSON.parse] returns for the text of such data is the data. *)
Lemma reads_stringify (d d' : AppData) :
  stable d -> reads (stringify d) d' -> d' = d.
Proof. intros Hd [Hd' E]; apply stringify_inj; assumption. Qed.

(** A number that is not finite is written as [null], and [-0] as [0]. *)
Lemma of_number_unstable (x : number) :
  stable_number x = false ->
  of_number x = JNull \/ of_number x = JNum Num.zero.
Proof. destruct x as [[|]|[|]| |sx mx ex]; cbn; try discriminate; auto. Qed.

End JsonFacts.

(* ===================================================================== *)
(** * The ledger store *)
(* ===================================================================== *)

Module Ledger.

Import DM Spec StoreFacts NumFacts.

(** What [addTransaction] does with an active account, whatever the
    payload: the record is built and put in front. *)
Lemma addTransaction_spec (td : TransactionData) (w : World) (st : DataManager)
    (u : UserData) :
  getCurrentUser st = Some u ->
  fst (addTransaction td w st)
  = (if setItem_ok w then Some (newTransaction td w) else None)
  /\ getCurrentUser (snd (addTransaction td w st))
     = Some (set_financial (set_transactions (cons (newTransaction td w))) u).
Proof.
  intros Hu; unfold addTransaction; rewrite Hu.
  destruct (saveData w _) as [ok st2] eqn:E.
  pose proof (saveData_fst w (update_currentUser
     (set_financial (set_transactions (cons (newTransaction td w)))) st)) as H1.
  pose proof (saveData_getCurrentUser w (update_currentUser
     (set_financial (set_transactions (cons (newTransaction td w)))) st)) as H2.
  rewrite E in H1, H2; simpl in *; subst ok.
  split; [reflexivity|].
  rewrite H2, getCurrentUser_update, Hu; reflexivity.
Qed.

(** C1. The claim: [addTransaction] validates the presence of
    description and amount, and an amount that is not a number is
    rejected or stored as [0], never as [NaN]. The code does not do so:
    for the payload [Sample.broken], which has no description and the
    amount ['abc'], it returns the record [Sample.rec_broken], whose
    amount is [NaN], and puts it at the front of the stored sequence.
    [setMonthlyIncome], next to it, turns the same input into [0]. *)
Theorem addTransaction_stores_NaN :
  fst (addTransaction Sample.broken (Sample.world "5") Sample.with_snack)
  = Some Sample.rec_broken
  /\ description Sample.rec_broken = None
  /\ amount Sample.rec_broken = Num.NaN
  /\ raw Sample.snack_then_broken = Some [Sample.rec_broken; Sample.rec_snack]
  /\ getMonthlyIncome "2024-01"
       (snd (JS.setMonthlyIncome "2024-01" (Host.JString "abc")
               (Sample.world "1") Sample.registered))
     = Num.zero.
Proof. repeat split; vm_compute; reflexivity. Qed.

(** C5. When [addTransaction(A)] and then [addTransaction(B)] succeed
    for the active account, the stored sequence is the record made for
    [B], then the record made for [A], then the sequence as it was:
    every successful call puts its record at the front and changes
    nothing else. *)
Theorem addTransaction_inserts_at_front (A B : TransactionData) (wA wB : World)
    (st stA stB : DataManager) (u : UserData) (recA recB : Transaction) :
  getCurrentUser st = Some u ->
  addTransaction A wA st = (Some recA, stA) ->
  addTransaction B wB stA = (Some recB, stB) ->
  recA = newTransaction A wA /\ recB = newTransaction B wB
  /\ raw stA = Some (recA :: transactions (financial u))
  /\ raw stB = Some (recB :: recA :: transactions (financial u)).
Proof.
  intros Hu HA HB.
  destruct (addTransaction_spec A wA st u Hu) as [A1 A2].
  rewrite HA in A1, A2; simpl in A1, A2.
  destruct (addTransaction_spec B wB stA _ A2) as [B1 B2].
  rewrite HB in B1, B2; simpl in B1, B2.
  assert (recA = newTransaction A wA) as ->
      by (destruct (setItem_ok wA); congruence).
  assert (recB = newTransaction B wB) as ->
      by (destruct (setItem_ok wB); congruence).
  unfold raw; rewrite A2, B2; repeat split; reflexivity.
Qed.

Lemma addTransaction_inserts_at_front_witness :
  getCurrentUser Sample.with_income = Some Sample.ana_with_income
  /\ raw Sample.with_freelance
     = Some [Sample.rec_freelance; Sample.rec_groceries].
Proof.
  split; [vm_compute; reflexivity|].
  refine (proj2 (proj2 (proj2
    (addTransaction_inserts_at_front Sample.groceries Sample.freelance
       (Sample.world "2") (Sample.world "3")
       Sample.with_income Sample.with_groceries Sample.with_freelance
       Sample.ana_with_income Sample.rec_groceries Sample.rec_freelance
       _ _ _)))).
  all: vm_compute; reflexivity.
Defined.

(** C6. For the active account, [removeTransaction(id)] with an id that
    no stored transaction has returns [false] and leaves the manager as
    it is; with an id that is there it takes out the first transaction
    that has it, nothing else, writes the data to the storage and
    returns whether the write went through. *)
Theorem removeTransaction_by_id (tid : string) (w : World) (st : DataManager)
    (u : UserData) :
  getCurrentUser st = Some u ->
  (Forall (fun t => id t <> tid) (transactions (financial u)) ->
   removeTransaction tid w st = (false, st))
  /\ (forall l1 t l2,
        transactions (financial u) = (l1 ++ t :: l2)%list ->
        Forall (fun x => id x <> tid) l1 -> id t = tid ->
        fst (removeTransaction tid w st) = setItem_ok w
        /\ raw (snd (removeTransaction tid w st)) = Some (l1 ++ l2)%list
        /\ (setItem_ok w = true ->
            localStorage (snd (removeTransaction tid w st))
            = Some (data (snd (removeTransaction tid w st))))).
Proof.
  intros Hu; unfold removeTransaction; rewrite Hu; split.
  - intros H; apply findIndex_None in H; rewrite H; reflexivity.
  - intros l1 t l2 Hl Hl1 Ht.
    rewrite Hl, (findIndex_first tid l1 l2 t Hl1 Ht).
    rewrite saveData_fst; split; [reflexivity|]; split.
    + unfold raw.
      rewrite saveData_getCurrentUser, getCurrentUser_update, Hu; simpl.
      rewrite Hl, splice1_middle; reflexivity.
    + apply saveData_persists.
Qed.

Lemma removeTransaction_by_id_witness :
  removeTransaction "nonexistent" (Sample.world "7") Sample.with_freelance
  = (false, Sample.with_freelance)
  /\ raw (snd (removeTransaction (id Sample.rec_groceries) (Sample.world "7")
                 Sample.with_freelance))
     = Some [Sample.rec_freelance].
Proof.
  pose proof (removeTransaction_by_id "nonexistent" (Sample.world "7")
                Sample.with_freelance
                (set_financial
                   (set_transactions
                      (fun _ => [Sample.rec_freelance; Sample.rec_groceries]))
                   Sample.ana_with_income)
                ltac:(vm_compute; reflexivity)) as [H1 _].
  pose proof (removeTransaction_by_id (id Sample.rec_groceries) (Sample.world "7")
                Sample.with_freelance
                (set_financial
                   (set_transactions
                      (fun _ => [Sample.rec_freelance; Sample.rec_groceries]))
                   Sample.ana_with_income)
                ltac:(vm_compute; reflexivity)) as [_ H2].
  split.
  - apply H1; repeat constructor; vm_compute; discriminate.
  - apply (H2 [Sample.rec_freelance] Sample.rec_groceries []);
      [reflexivity | repeat constructor; vm_compute; discriminate | reflexivity].
Defined.

(** C10. When no account is stored under the id derived from the
    e-mail, [registerUser] creates the account and makes it the current
    one; it reports success exactly when the write to the storage goes
    through, and after a success [isLoggedIn()] is [true] and
    [getCurrentUser()] is the record just created, the one the call
    returns. *)
Theorem registerUser_activates (userData : RegisterData) (w : World)
    (st : DataManager) :
  users (data st) !! generateUserId (rd_email userData) = None ->
  success (fst (registerUser userData w st)) = setItem_ok w
  /\ (success (fst (registerUser userData w st)) = true ->
      isLoggedIn (snd (registerUser userData w st)) = true
      /\ getCurrentUser (snd (registerUser userData w st))
         = Some (createUserStructure (generateUserId (rd_email userData))
                   userData w)
      /\ user (fst (registerUser userData w st))
         = getCurrentUser (snd (registerUser userData w st))).
Proof.
  intros Hnew; unfold registerUser; rewrite Hnew.
  unfold saveData; cbn [setItem_ok data currentUser].
  destruct (setItem_ok w); cbn [fst snd success user];
    (split; [reflexivity|]); [|discriminate].
  intros _.
  unfold isLoggedIn, getCurrentUser; cbn [currentUser data users].
  rewrite lookup_insert_eq; repeat split; reflexivity.
Qed.

Lemma registerUser_activates_witness :
  users (data Sample.fresh) !! generateUserId "a@b.com" = None
  /\ isLoggedIn Sample.registered = true
  /\ getCurrentUser Sample.registered
     = Some (createUserStructure "YUBiLmNvbQ" Sample.ana (Sample.world "0")).
Proof.
  split; [reflexivity|].
  destruct (registerUser_activates Sample.ana (Sample.world "0") Sample.fresh
              eq_refl) as [_ H].
  destruct (H eq_refl) as (H1 & H2 & _).
  split; [exact H1 | exact H2].
Defined.

End Ledger.

(* ===================================================================== *)
(** * The fixed monthly income *)
(* ===================================================================== *)

Module Income.

Import DM Spec StoreFacts NumFacts.

Lemma incomes_update (f : gmap string number -> gmap string number) (w : World)
    (st : DataManager) (u : UserData) :
  getCurrentUser st = Some u ->
  incomes (snd (saveData w
                  (update_currentUser (set_financial (set_monthlyIncomes f)) st)))
  = Some (f (monthlyIncomes (financial u))).
Proof.
  intros Hu; unfold incomes.
  rewrite saveData_getCurrentUser, getCurrentUser_update, Hu; reflexivity.
Qed.

(** C3, as the code has it. With an active account,
    [setMonthlyIncome(period, amount)] stores under the period key the
    number [parseFloat] reads from the amount, unless that number is
    [NaN] or a zero, in which case it stores [0]; the other entries are
    left alone. What is stored is never [NaN], but a negative or an
    infinite amount is stored as it is. The call returns whether the
    write to the storage went through. This holds of the TypeScript
    file, where the amount is a Number and reads back as itself, and of
    the JavaScript file. *)
Theorem setMonthlyIncome_stores (yearMonth : string) (w : World)
    (st : DataManager) (u : UserData) :
  getCurrentUser st = Some u ->
  (forall amount : number,
      fst (TS.setMonthlyIncome yearMonth amount w st) = setItem_ok w
      /\ incomes (snd (TS.setMonthlyIncome yearMonth amount w st))
         = Some (<[yearMonth := if Num.truthy amount then amount else Num.zero]>
                   (monthlyIncomes (financial u))))
  /\ (forall amount : Host.jsval,
        fst (JS.setMonthlyIncome yearMonth amount w st) = setItem_ok w
        /\ incomes (snd (JS.setMonthlyIncome yearMonth amount w st))
           = Some (<[yearMonth :=
                       if Num.truthy (Host.parseFloat amount)
                       then Host.parseFloat amount else Num.zero]>
                     (monthlyIncomes (financial u))))
  /\ (forall x : number,
        Num.isNaN (if Num.truthy x then x else Num.zero) = false).
Proof.
  intros Hu; split; [|split].
  - intros amount; unfold TS.setMonthlyIncome; rewrite Hu.
    rewrite saveData_fst, (incomes_update _ w st u Hu).
    split; [reflexivity|].
    destruct amount as [[|]|[|]| |[|] m e]; reflexivity.
  - intros amount; unfold JS.setMonthlyIncome; rewrite Hu.
    rewrite saveData_fst, (incomes_update _ w st u Hu).
    split; reflexivity.
  - intros x; apply (or_else_not_NaN x).
Qed.

Lemma setMonthlyIncome_stores_witness :
  incomes (snd (TS.setMonthlyIncome "2024-01" (Num.of_Z 5000) (Sample.world "1")
                  Sample.registered))
  = Some {["2024-01" := Num.of_Z 5000]}
  /\ incomes (snd (JS.setMonthlyIncome "2024-01" (Host.JString "abc")
                     (Sample.world "1") Sample.registered))
     = Some {["2024-01" := Num.zero]}.
Proof.
  destruct (setMonthlyIncome_stores "2024-01" (Sample.world "1")
              Sample.registered
              (createUserStructure "YUBiLmNvbQ" Sample.ana (Sample.world "0"))
              ltac:(vm_compute; reflexivity)) as (H1 & H2 & _).
  split.
  - exact (proj2 (H1 (Num.of_Z 5000))).
  - exact (proj2 (H2 (Host.JString "abc"))).
Defined.

(** C3, as stated, fails: a negative amount is stored as it is, and so
    is an infinite one. *)
Lemma setMonthlyIncome_keeps_negative :
  incomes (snd (TS.setMonthlyIncome "2024-01" (Num.of_Z (-5)) (Sample.world "1")
                  Sample.registered))
  = Some {["2024-01" := Num.of_Z (-5)]}
  /\ Num.nonneg (Num.of_Z (-5)) = false
  /\ incomes (snd (JS.setMonthlyIncome "2024-01" (Host.JString "Infinity")
                     (Sample.world "1") Sample.registered))
     = Some {["2024-01" := Num.Infinity]}
  /\ Num.isFinite Num.Infinity = false.
Proof. repeat split; vm_compute; reflexivity. Qed.

End Income.

(* ===================================================================== *)
(** * The period index *)
(* ===================================================================== *)

Module PeriodIndex.

Import DM Spec StrFacts.

Lemma filter_ext_bool {A : Type} (f g : A -> bool) (l : list A) :
  (forall x, f x = g x) -> List.filter f l = List.filter g l.
Proof.
  intros H; induction l as [|x r IH]; simpl; [reflexivity|].
  rewrite H, IH; reflexivity.
Qed.

(** C4. For a period key [YYYY-MM] the period filter selects the stored
    transactions whose date has the key as its leading 7 characters, in
    stored order; the TypeScript file (which compares
    [date.substring(0, 7)] with the trimmed key) and the JavaScript file
    (which asks [date.startsWith(key)]) return this same list. *)
Theorem getTransactionsByPeriod_refinement (yearMonth : string) (st : DataManager) :
  is_period_key yearMonth = true ->
  TS.getTransactionsByPeriod yearMonth st = periodFilter yearMonth (stored st)
  /\ JS.getTransactionsByPeriod yearMonth st = periodFilter yearMonth (stored st).
Proof.
  intros Hk.
  unfold TS.getTransactionsByPeriod, JS.getTransactionsByPeriod, stored, periodFilter.
  destruct (getCurrentUser st) as [u|]; [|split; reflexivity].
  split; apply filter_ext_bool; intros t.
  - rewrite (trim_period_key _ Hk), substring_leading; reflexivity.
  - rewrite startsWith_leading, (is_period_key_length _ Hk); reflexivity.
Qed.

Lemma getTransactionsByPeriod_refinement_witness :
  is_period_key "2024-01" = true
  /\ TS.getTransactionsByPeriod "2024-01" Sample.with_freelance
     = [Sample.rec_freelance; Sample.rec_groceries]
  /\ JS.getTransactionsByPeriod "2024-01" Sample.with_freelance
     = [Sample.rec_freelance; Sample.rec_groceries].
Proof.
  split; [reflexivity|].
  destruct (getTransactionsByPeriod_refinement "2024-01" Sample.with_freelance
              eq_refl) as [H1 H2].
  rewrite H1, H2; split; vm_compute; reflexivity.
Defined.

End PeriodIndex.

(* ===================================================================== *)
(** * Without a session *)
(* ===================================================================== *)

Module Session.

Import DM Spec.

(** C9. While no account is active the read accessors return their
    defaults: [getMonthlyIncome] returns [0], [getCategories] and
    [getTransactionsByPeriod] the empty list, [getFinancialSummary] and
    [comparePeriods] [null]; this holds of both files. *)
Theorem no_account_defaults (getTime : string -> option Z) (st : DataManager)
    (p q : string) :
  getCurrentUser st = None ->
  getMonthlyIncome p st = Num.zero
  /\ getCategories st = []
  /\ TS.getTransactionsByPeriod p st = []
  /\ JS.getTransactionsByPeriod p st = []
  /\ TS.getFinancialSummary getTime p st = None
  /\ JS.getFinancialSummary p st = None
  /\ TS.comparePeriods getTime p q st = None
  /\ JS.comparePeriods p q st = None.
Proof.
  intros H.
  unfold getMonthlyIncome, getCategories, TS.comparePeriods, JS.comparePeriods,
    TS.getFinancialSummary, JS.getFinancialSummary,
    TS.getTransactionsByPeriod, JS.getTransactionsByPeriod.
  rewrite H; repeat split; reflexivity.
Qed.

Lemma no_account_defaults_witness :
  getCurrentUser Sample.logged_out = None
  /\ getMonthlyIncome "2024-01" Sample.logged_out = Num.zero
  /\ TS.getFinancialSummary Sample.getTime "2024-01" Sample.logged_out = None.
Proof.
  split; [reflexivity|].
  destruct (no_account_defaults Sample.getTime Sample.logged_out
              "2024-01" "2024-02" eq_refl) as (H1 & _ & _ & _ & H5 & _).
  split; [exact H1 | exact H5].
Defined.

End Session.

(* ===================================================================== *)
(** * The summary engine and the comparator *)
(* ===================================================================== *)

Module SummaryEngine.

Import DM Spec NumFacts SummaryFacts.




(** Where the two files select the same transactions, the summary of
    the JavaScript file has the same totals: it adds the fixed income on
    the other side. *)
Lemma JS_summary_totals (getTime : string -> option Z) (yearMonth : string)
    (st : DataManager) (s : Summary) :
  JS.getTransactionsByPeriod yearMonth st = TS.getTransactionsByPeriod yearMonth st ->
  TS.getFinancialSummary getTime yearMonth st = Some s ->
  JS.getFinancialSummary yearMonth st
  = Some {| period := period s;
            monthlyIncome := monthlyIncome s;
            totalIncome := totalIncome s;
            totalExpenses := totalExpenses s;
            balance := balance s;
            transactionCount := transactionCount s;
            expensesByCategory := expensesByCategory s;
            summary_transactions := JS.getTransactionsByPeriod yearMonth st |}.
Proof.
  intros Hk; unfold TS.getFinancialSummary, JS.getFinancialSummary.
  destruct (getCurrentUser st) as [u|] eqn:Hu; [|discriminate].
  rewrite Hk; intros [= <-]; cbn.
  rewrite (add_comm (reduce_amounts _) _); reflexivity.
Qed.

(** In the TypeScript file the list of the summary is the period's
    transactions rearranged; when every date is valid the list is sorted
    by date, the latest first, and transactions of one date keep their
    stored order. *)
Lemma TS_summary_sorted (getTime : string -> option Z) (yearMonth : string)
    (st : DataManager) (s : Summary) :
  TS.getFinancialSummary getTime yearMonth st = Some s ->
  Permutation (summary_transactions s) (TS.getTransactionsByPeriod yearMonth st)
  /\ (Forall (fun t => is_Some (getTime (date t)))
        (TS.getTransactionsByPeriod yearMonth st) ->
      date_descending getTime (summary_transactions s)
      /\ keeps_order_of_ties getTime (TS.getTransactionsByPeriod yearMonth st)
           (summary_transactions s)).
Proof.
  unfold TS.getFinancialSummary.
  destruct (getCurrentUser st) as [u|]; [|discriminate].
  intros [= <-]; cbn [summary_transactions].
  split; [apply sort_perm|].
  intros Hv; split; [apply sort_sorted; exact Hv | apply sort_ties].
Qed.

(** In the JavaScript file the list of the summary is the period's
    transactions in stored order. *)
Lemma JS_summary_unsorted (yearMonth : string) (st : DataManager) (s : Summary) :
  JS.getFinancialSummary yearMonth st = Some s ->
  summary_transactions s = JS.getTransactionsByPeriod yearMonth st.
Proof.
  unfold JS.getFinancialSummary.
  destruct (getCurrentUser st) as [u|]; [|discriminate].
  intros [= <-]; reflexivity.
Qed.

(** C8. The claim: the list of the summary is sorted by date, the
    latest first. The TypeScript file sorts it; the JavaScript file does
    not. In [Sample.snack_then_groceries] the snack of the 25th was
    entered before the groceries of the 15th, so the groceries are
    stored in front: the JavaScript summary lists the 15th before the
    25th, the TypeScript summary the 25th before the 15th. *)
Theorem JS_summary_not_sorted :
  (map date ∘ summary_transactions <$>
     JS.getFinancialSummary "2024-01" Sample.snack_then_groceries)
  = Some ["2024-01-15"; "2024-01-25"]
  /\ (map date ∘ summary_transactions <$>
        TS.getFinancialSummary Sample.getTime "2024-01" Sample.snack_then_groceries)
     = Some ["2024-01-25"; "2024-01-15"]
  /\ Sample.getTime "2024-01-15" = Some 1705276800000%Z
  /\ Sample.getTime "2024-01-25" = Some 1706140800000%Z.
Proof. repeat split; vm_compute; reflexivity. Qed.

End SummaryEngine.

Module Comparator.

Import DM Spec NumFacts.

(** C7. In what [comparePeriods(period1, period2)] returns, [period1] is
    the summary of the baseline period; when its [totalIncome] is zero
    [incomeChangePercent] is [0], and when its [totalExpenses] is zero
    [expenseChangePercent] is [0]: no division takes place. *)
Theorem comparePeriods_zero_baseline (getTime : string -> option Z)
    (p1 p2 : string) (st : DataManager) (c : Comparison) :
  TS.comparePeriods getTime p1 p2 st = Some c ->
  TS.getFinancialSummary getTime p1 st = Some (period1 c)
  /\ (Num.is_zero (totalIncome (period1 c)) = true ->
      incomeChangePercent (comparison c) = Num.zero)
  /\ (Num.is_zero (totalExpenses (period1 c)) = true ->
      expenseChangePercent (comparison c) = Num.zero).
Proof.
  unfold TS.comparePeriods.
  destruct (TS.getFinancialSummary getTime p1 st) as [s1|]; [|discriminate].
  destruct (TS.getFinancialSummary getTime p2 st) as [s2|]; [|discriminate].
  intros [= <-]; cbn; split; [reflexivity|].
  split; intros H; rewrite (gt_zero_false _ H); reflexivity.
Qed.

Lemma comparePeriods_zero_baseline_witness :
  (totalIncome ∘ period1 <$> Sample.december_vs_january) = Some Num.zero
  /\ (incomeChangePercent ∘ comparison <$> Sample.december_vs_january)
     = Some Num.zero
  /\ (expenseChangePercent ∘ comparison <$> Sample.december_vs_january)
     = Some Num.zero.
Proof.
  split; [vm_compute; reflexivity|].
  destruct Sample.december_vs_january as [c|] eqn:E;
    [|vm_compute in E; discriminate].
  destruct (comparePeriods_zero_baseline Sample.getTime "2023-12" "2024-01"
              Sample.with_freelance c E) as (_ & H1 & H2).
  assert (Hc : Some c = Sample.december_vs_january) by (symmetry; exact E).
  assert (Hi : Num.is_zero (totalIncome (period1 c)) = true)
    by (vm_compute in Hc; injection Hc as ->; reflexivity).
  assert (He : Num.is_zero (totalExpenses (period1 c)) = true)
    by (vm_compute in Hc; injection Hc as ->; reflexivity).
  split; cbn; f_equal; [exact (H1 Hi) | exact (H2 He)].
Defined.

End Comparator.

(* ===================================================================== *)
(** * Accounts and sessions *)
(* ===================================================================== *)

Module Accounts.

Import DM Spec StoreFacts.

Lemma lower_char_idempotent (c : ascii) :
  Str.lower_char (Str.lower_char c) = Str.lower_char c.
Proof.
  destruct c as [[|] [|] [|] [|] [|] [|] [|] [|]]; vm_compute; reflexivity.
Qed.

Lemma toLowerCase_idempotent (s : string) :
  Str.toLowerCase (Str.toLowerCase s) = Str.toLowerCase s.
Proof.
  unfold Str.toLowerCase; induction s as [|c r IH]; simpl; [reflexivity|].
  rewrite lower_char_idempotent, IH; reflexivity.
Qed.

(** X1. The id of an account does not depend on the case of the letters
    of the e-mail: an e-mail and its lower-case form have the same id. *)
Theorem generateUserId_ignores_case (email : string) :
  generateUserId (Str.toLowerCase email) = generateUserId email.
Proof. unfold generateUserId; rewrite toLowerCase_idempotent; reflexivity. Qed.

(** X2. An e-mail registers once. After [registerUser] has succeeded for
    an e-mail, [registerUser] for any e-mail with the same letters,
    whatever their case, fails with 'Usuário já existe' and changes
    nothing: the account, the session and the storage stay as they are. *)
Theorem registerUser_once (userData userData' : RegisterData) (w w' : World)
    (st : DataManager) :
  success (fst (registerUser userData w st)) = true ->
  Str.toLowerCase (rd_email userData') = Str.toLowerCase (rd_email userData) ->
  registerUser userData' w' (snd (registerUser userData w st))
  = ({| success := false; user := None; message := Some msg_exists |},
     snd (registerUser userData w st)).
Proof.
  intros Hok Hcase.
  assert (Hid : generateUserId (rd_email userData')
                = generateUserId (rd_email userData))
    by (unfold generateUserId; rewrite Hcase; reflexivity).
  assert (Hin : is_Some (users (data (snd (registerUser userData w st)))
                           !! generateUserId (rd_email userData))).
  { revert Hok; unfold registerUser.
    destruct (users (data st) !! generateUserId (rd_email userData)) eqn:E;
      [discriminate|].
    unfold saveData; cbn [setItem_ok data currentUser].
    destruct (setItem_ok w); cbn; [|discriminate].
    intros _; rewrite lookup_insert_eq; eauto. }
  destruct Hin as [u Hu].
  unfold registerUser at 1; rewrite Hid, Hu; reflexivity.
Qed.

Lemma registerUser_once_witness :
  registerUser {| rd_name := "Ana B."; rd_email := "A@B.com" |}
    (Sample.world "9") Sample.registered
  = ({| success := false; user := None; message := Some msg_exists |},
     Sample.registered).
Proof.
  exact (registerUser_once Sample.ana
           {| rd_name := "Ana B."; rd_email := "A@B.com" |}
           (Sample.world "0") (Sample.world "9") Sample.fresh
           eq_refl eq_refl).
Defined.

(** X3. When the storage refuses the write, [registerUser] reports
    'Erro ao salvar dados', and yet the account exists in memory and is
    the current session; the storage keeps what it had. This is for an
    e-mail of code units below 256 (on any other [btoa] throws) that has
    no account and whose id is not the name of a member of
    [Object.prototype] (under such a name [users[userId]] reads the
    inherited member and the answer is 'Usuário já existe'). *)
Theorem registerUser_unsaved (userData : RegisterData) (w : World)
    (st : DataManager) :
  users (data st) !! generateUserId (rd_email userData) = None ->
  inherited (generateUserId (rd_email userData)) = false ->
  setItem_ok w = false ->
  fst (registerUser userData w st)
  = {| success := false; user := None; message := Some msg_save_error |}
  /\ isLoggedIn (snd (registerUser userData w st)) = true
  /\ getCurrentUser (snd (registerUser userData w st))
     = Some (createUserStructure (generateUserId (rd_email userData)) userData w)
  /\ localStorage (snd (registerUser userData w st)) = localStorage st.
Proof.
  intros Hnew _ Hfull; unfold registerUser; rewrite Hnew.
  unfold saveData; cbn [setItem_ok data currentUser]; rewrite Hfull.
  cbn [fst snd]; unfold isLoggedIn, getCurrentUser; cbn.
  rewrite lookup_insert_eq; repeat split; reflexivity.
Qed.

Lemma registerUser_unsaved_witness :
  success (fst (registerUser Sample.ana (Trace.full "0") Sample.fresh)) = false
  /\ isLoggedIn (snd (registerUser Sample.ana (Trace.full "0") Sample.fresh)) = true
  /\ localStorage (snd (registerUser Sample.ana (Trace.full "0") Sample.fresh)) = None.
Proof.
  destruct (registerUser_unsaved Sample.ana (Trace.full "0") Sample.fresh
              eq_refl eq_refl eq_refl) as (H1 & H2 & _ & H4).
  rewrite H1, H2, H4; repeat split; reflexivity.
Defined.

Lemma loginUser_known (email password : string) (w : World) (st : DataManager)
    (u : UserData) :
  users (data st) !! generateUserId email = Some u ->
  fst (loginUser email password w st)
  = {| success := true;
       user := Some (set_lastLogin (toISOString w 0%nat) u);
       message := None |}
  /\ getCurrentUser (snd (loginUser email password w st))
     = Some (set_lastLogin (toISOString w 0%nat) u)
  /\ (forall k, k <> generateUserId email ->
        users (data (snd (loginUser email password w st))) !! k
        = users (data st) !! k).
Proof.
  intros E; unfold loginUser; rewrite E.
  unfold saveData; cbn [setItem_ok data currentUser].
  destruct (setItem_ok w); cbn [fst snd]; unfold getCurrentUser; cbn;
    rewrite lookup_alter_eq, E; cbn; (split; [reflexivity|]);
    (split; [reflexivity|]); intros k Hk;
    rewrite lookup_alter_ne; congruence.
Qed.

(** X4. [loginUser] looks only at the e-mail, here one of code units
    below 256 (on any other [btoa] throws). For an e-mail with an account
    it succeeds whatever the password and whether or not the storage
    takes the write: the account becomes the current one, its
    [lastLogin] is the clock's reading and nothing else of it changes,
    and no other account is touched. For an e-mail without an account
    whose id is not the name of a member of [Object.prototype] it fails
    with 'Usuário não encontrado' and changes nothing (under such a name
    [users[userId]] reads the inherited member, and the call ends with a
    [TypeError] at [user.profile.lastLogin]). *)
Theorem loginUser_by_email (email password : string) (w : World)
    (st : DataManager) :
  (forall u,
      users (data st) !! generateUserId email = Some u ->
      fst (loginUser email password w st)
      = {| success := true;
           user := Some (set_lastLogin (toISOString w 0%nat) u);
           message := None |}
      /\ getCurrentUser (snd (loginUser email password w st))
         = Some (set_lastLogin (toISOString w 0%nat) u)
      /\ (forall k, k <> generateUserId email ->
            users (data (snd (loginUser email password w st))) !! k
            = users (data st) !! k))
  /\ (users (data st) !! generateUserId email = None ->
      inherited (generateUserId email) = false ->
      loginUser email password w st
      = ({| success := false; user := None; message := Some msg_not_found |}, st)).
Proof.
  split.
  - intros u E; apply loginUser_known; assumption.
  - intros E _; unfold loginUser; rewrite E; reflexivity.
Qed.

Lemma loginUser_by_email_witness :
  success (fst (loginUser "A@B.com" "any" (Sample.world "6") Sample.logged_out))
  = true
  /\ loginUser "bob@c.org" "any" (Sample.world "6") Sample.logged_out
     = ({| success := false; user := None; message := Some msg_not_found |},
        Sample.logged_out).
Proof.
  destruct (loginUser_by_email "A@B.com" "any" (Sample.world "6")
              Sample.logged_out) as [H _].
  destruct (loginUser_by_email "bob@c.org" "any" (Sample.world "6")
              Sample.logged_out) as [_ H'].
  split.
  - destruct (users (data Sample.logged_out) !! generateUserId "A@B.com")
      as [u|] eqn:E; [|vm_compute in E; discriminate].
    destruct (H u eq_refl) as [-> _]; reflexivity.
  - apply H'; vm_compute; reflexivity.
Defined.

(** X5. Logging out forgets the session and keeps the accounts: after
    [logout] nobody is logged in, and [loginUser] with the e-mail of an
    account brings that account back with everything it held, its
    [lastLogin] apart. *)
Theorem logout_then_login (email password : string) (w1 w2 : World)
    (st : DataManager) (u : UserData) :
  users (data st) !! generateUserId email = Some u ->
  isLoggedIn (logout w1 st) = false
  /\ users (data (logout w1 st)) = users (data st)
  /\ getCurrentUser (snd (loginUser email password w2 (logout w1 st)))
     = Some (set_lastLogin (toISOString w2 0%nat) u).
Proof.
  intros Hu.
  assert (Hd : users (data (logout w1 st)) = users (data st))
    by (unfold logout; rewrite saveData_data; reflexivity).
  split; [|split; [exact Hd|]].
  - unfold logout, isLoggedIn.
    rewrite saveData_getCurrentUser; reflexivity.
  - apply (loginUser_known email password w2 (logout w1 st) u).
    rewrite Hd; exact Hu.
Qed.

Lemma logout_then_login_witness :
  isLoggedIn Sample.logged_out = false
  /\ (financial <$>
        getCurrentUser (snd (loginUser "a@b.com" "secret" (Sample.world "7")
                               Sample.logged_out)))
     = (financial <$> getCurrentUser Sample.with_freelance).
Proof.
  destruct (logout_then_login "a@b.com" "secret" (Sample.world "6")
              (Sample.world "7") Sample.with_freelance
              (set_financial
                 (set_transactions
                    (fun _ => [Sample.rec_freelance; Sample.rec_groceries]))
                 Sample.ana_with_income)
              ltac:(vm_compute; reflexivity)) as (H1 & _ & H3).
  split; [exact H1|].
  unfold Sample.logged_out; rewrite H3; vm_compute; reflexivity.
Defined.

End Accounts.

(* ===================================================================== *)
(** * The id of an account *)
(* ===================================================================== *)

Module UserId.

Import DM.

Lemma map_append (f : ascii -> ascii) (a b : string) :
  Str.map f (a +:+ b) = Str.map f a +:+ Str.map f b.
Proof. induction a as [|c r IH]; simpl; [reflexivity | rewrite IH; reflexivity]. Qed.

Lemma filter_append (f : ascii -> bool) (a b : string) :
  Str.filter f (a +:+ b) = Str.filter f a +:+ Str.filter f b.
Proof.
  induction a as [|c r IH]; simpl; [reflexivity|].
  rewrite IH; destruct (f c); reflexivity.
Qed.

Lemma map_length (f : ascii -> ascii) (a : string) :
  String.length (Str.map f a) = String.length a.
Proof. induction a as [|c r IH]; simpl; [reflexivity | rewrite IH; reflexivity]. Qed.

(** [btoa] encodes three code units at a time. *)
Lemma btoa_append (n : nat) :
  forall p r : string,
    String.length p = (3 * n)%nat ->
    Host.btoa (p +:+ r) = Host.btoa p +:+ Host.btoa r.
Proof.
  induction n as [|n IH]; intros p r Hp.
  - destruct p; [reflexivity | discriminate].
  - destruct p as [|a [|b [|c p]]]; simpl in Hp; try lia.
    change (String a (String b (String c p)) +:+ r)
      with (String a (String b (String c (p +:+ r)))).
    cbn [Host.btoa].
    rewrite (IH p r) by lia; reflexivity.
Qed.

Lemma append_inv_head (p a b : string) : p +:+ a = p +:+ b -> a = b.
Proof.
  induction p as [|c r IH]; simpl; [auto|].
  intros [= H]; auto.
Qed.

(** X6. Two different e-mails can have the same id. [generateUserId]
    drops the [+] and the [/] of the base64 text, and these are all that
    tells [>] from [?] at the end of a group of three characters: where
    one e-mail has [>] as the third character of a group and another has
    [?] there, the ids are equal, so the second cannot register and
    logs in to the account of the first. *)
Theorem generateUserId_collision (n : nat) (p s : string) (a b : ascii) :
  String.length p = (3 * n)%nat ->
  p +:+ String a (String b (String ">" s))
  <> p +:+ String a (String b (String "?" s))
  /\ generateUserId (p +:+ String a (String b (String ">" s)))
     = generateUserId (p +:+ String a (String b (String "?" s))).
Proof.
  intros Hp; split.
  - intros H; apply append_inv_head in H; discriminate.
  - unfold generateUserId, Str.toLowerCase.
    rewrite !map_append.
    rewrite !(btoa_append n) by (rewrite map_length; exact Hp).
    rewrite !filter_append; apply f_equal.
    (* the fourth character of the group is [+] or [/], and is dropped *)
    reflexivity.
Qed.

Lemma generateUserId_collision_witness :
  "me>@x.io" <> "me?@x.io"
  /\ generateUserId "me>@x.io" = generateUserId "me?@x.io".
Proof.
  exact (generateUserId_collision 0 "" "@x.io" "m" "e" eq_refl).
Defined.

End UserId.

(* ===================================================================== *)
(** * More of the ledger store *)
(* ===================================================================== *)

Module LedgerMore.

Import DM Spec StoreFacts Run.

Lemma update_currentUser_others (f : UserData -> UserData) (st : DataManager)
    (j : string) :
  currentUser st <> Some j ->
  users (data (update_currentUser f st)) !! j = users (data st) !! j.
Proof.
  unfold update_currentUser; intros Hne.
  destruct (currentUser st) as [k|] eqn:E; [|reflexivity]; simpl.
  rewrite lookup_alter_ne; [reflexivity | congruence].
Qed.

Lemma update_currentUser_session (f : UserData -> UserData) (st : DataManager) :
  currentUser (update_currentUser f st) = currentUser st
  /\ currentUserId (data (update_currentUser f st)) = currentUserId (data st)
  /\ localStorage (update_currentUser f st) = localStorage st.
Proof.
  unfold update_currentUser.
  destruct (currentUser st) as [k|] eqn:E; cbn; rewrite ?E; repeat split; reflexivity.
Qed.

(** A call on the ledger either returns early or writes through
    [currentUser] and saves. *)
Lemma on_ledger_shape (c : Call) (w : World) (st : DataManager) :
  on_ledger c = true ->
  exec c w st = st
  \/ exists f, exec c w st = snd (saveData w (update_currentUser f st)).
Proof.
  destruct c; try discriminate; intros _; cbn [exec];
    [ unfold TS.setMonthlyIncome | unfold JS.setMonthlyIncome
    | unfold addTransaction | unfold removeTransaction | unfold addCategory ];
    destruct (getCurrentUser st) as [u|]; try (left; reflexivity).
  - right; eexists; reflexivity.
  - right; eexists; reflexivity.
  - right; eexists.
    destruct (saveData w _) as [ok st2] eqn:E; cbn [snd].
    change st2 with (snd (ok, st2)); rewrite <- E; reflexivity.
  - destruct (findIndex transactionId _); [right; eexists | left]; reflexivity.
  - destruct (Str.trim categoryName); [left; reflexivity|].
    destruct (includes categoryName _); [left | right; eexists]; reflexivity.
Qed.

(** X7. The calls on the ledger ([setMonthlyIncome], [addTransaction],
    [removeTransaction], [addCategory]) work on the current account only:
    they leave the session as it is and change no other account. *)
Theorem ledger_calls_are_local (c : Call) (w : World) (st : DataManager) :
  on_ledger c = true ->
  currentUser (exec c w st) = currentUser st
  /\ currentUserId (data (exec c w st)) = currentUserId (data st)
  /\ forall j, currentUser st <> Some j ->
               users (data (exec c w st)) !! j = users (data st) !! j.
Proof.
  intros Hc; destruct (on_ledger_shape c w st Hc) as [->|[f ->]].
  - repeat split; reflexivity.
  - rewrite saveData_currentUser, saveData_data.
    destruct (update_currentUser_session f st) as (H1 & H2 & _).
    repeat split; try assumption.
    intros j Hj; apply update_currentUser_others; assumption.
Qed.

Lemma ledger_calls_are_local_witness :
  currentUser Trace.two_accounts = Some (generateUserId "bob@c.org")
  /\ users (data (exec (CallAdd Sample.snack) (Sample.world "4")
                    Trace.two_accounts)) !! generateUserId "a@b.com"
     = users (data Sample.with_freelance) !! generateUserId "a@b.com".
Proof.
  split; [vm_compute; reflexivity|].
  destruct (ledger_calls_are_local (CallAdd Sample.snack) (Sample.world "4")
              Trace.two_accounts eq_refl) as (_ & _ & H).
  rewrite (H (generateUserId "a@b.com"))
    by (vm_compute; discriminate).
  vm_compute; reflexivity.
Defined.

(** X8. When the storage refuses the write, [addTransaction] returns
    [false], and yet the record is at the front of the stored sequence;
    the storage keeps what it had. *)
Theorem addTransaction_unsaved (td : TransactionData) (w : World)
    (st : DataManager) (u : UserData) :
  getCurrentUser st = Some u ->
  setItem_ok w = false ->
  fst (addTransaction td w st) = None
  /\ raw (snd (addTransaction td w st))
     = Some (newTransaction td w :: transactions (financial u))
  /\ localStorage (snd (addTransaction td w st)) = localStorage st.
Proof.
  intros Hu Hw.
  destruct (Ledger.addTransaction_spec td w st u Hu) as [H1 H2].
  rewrite H1, Hw; split; [reflexivity|]; split.
  - unfold raw; rewrite H2; reflexivity.
  - unfold addTransaction; rewrite Hu.
    unfold saveData; rewrite Hw; cbn [snd].
    apply update_currentUser_session.
Qed.

Lemma addTransaction_unsaved_witness :
  fst (addTransaction Sample.snack (Trace.full "4") Sample.with_freelance) = None
  /\ raw (snd (addTransaction Sample.snack (Trace.full "4") Sample.with_freelance))
     = Some [newTransaction Sample.snack (Trace.full "4");
             Sample.rec_freelance; Sample.rec_groceries]
  /\ localStorage (snd (addTransaction Sample.snack (Trace.full "4")
                          Sample.with_freelance))
     = localStorage Sample.with_freelance.
Proof.
  exact (addTransaction_unsaved Sample.snack (Trace.full "4")
           Sample.with_freelance
           (set_financial
              (set_transactions
                 (fun _ => [Sample.rec_freelance; Sample.rec_groceries]))
              Sample.ana_with_income)
           ltac:(vm_compute; reflexivity) eq_refl).
Defined.

Lemma set_transactions_undo (t : Transaction) (u : UserData) :
  set_financial (set_transactions (splice1 0))
    (set_financial (set_transactions (cons t)) u) = u.
Proof.
  destruct u as [i p [m l c g] s]; unfold splice1; cbn.
  reflexivity.
Qed.

(** X9. Adding a transaction and then removing the transaction that was
    added gives back the account as it was: the new record is found
    first even when an older transaction has the same id. *)
Theorem add_then_remove (td : TransactionData) (w w' : World)
    (st : DataManager) (u : UserData) :
  getCurrentUser st = Some u ->
  fst (removeTransaction (id (newTransaction td w)) w'
         (snd (addTransaction td w st))) = setItem_ok w'
  /\ getCurrentUser
       (snd (removeTransaction (id (newTransaction td w)) w'
               (snd (addTransaction td w st))))
     = Some u.
Proof.
  intros Hu.
  destruct (Ledger.addTransaction_spec td w st u Hu) as [_ H2].
  unfold removeTransaction; rewrite H2.
  cbn [financial set_financial transactions set_transactions findIndex].
  rewrite String.eqb_refl.
  rewrite saveData_fst, saveData_getCurrentUser, getCurrentUser_update, H2.
  cbn [fmap option_fmap option_map]; rewrite set_transactions_undo.
  split; reflexivity.
Qed.

Lemma add_then_remove_witness :
  getCurrentUser
    (snd (removeTransaction (id Sample.rec_snack) (Sample.world "7")
            (snd (addTransaction Sample.snack (Sample.world "4")
                    Sample.with_income))))
  = Some Sample.ana_with_income.
Proof.
  exact (proj2 (add_then_remove Sample.snack (Sample.world "4") (Sample.world "7")
                  Sample.with_income Sample.ana_with_income
                  ltac:(vm_compute; reflexivity))).
Defined.

End LedgerMore.

(* ===================================================================== *)
(** * How the calls on the ledger compose *)
(* ===================================================================== *)

Module Compose.

Import DM Spec StoreFacts StrFacts NumFacts Run.

Lemma stored_after_add (td : TransactionData) (w : World) (st : DataManager)
    (u : UserData) :
  getCurrentUser st = Some u ->
  getCurrentUser (snd (addTransaction td w st))
  = Some (set_financial (set_transactions (cons (newTransaction td w))) u).
Proof. intros Hu; apply (Ledger.addTransaction_spec td w st u Hu). Qed.

Lemma TS_period_after_add (yearMonth : string) (td : TransactionData) (w : World)
    (st : DataManager) (u : UserData) :
  getCurrentUser st = Some u ->
  TS.getTransactionsByPeriod yearMonth (snd (addTransaction td w st))
  = ((if String.eqb (Str.substring 0 7 (date (newTransaction td w)))
                    (Str.trim yearMonth)
     then [newTransaction td w] else [])
    ++ TS.getTransactionsByPeriod yearMonth st)%list.
Proof.
  intros Hu; unfold TS.getTransactionsByPeriod.
  rewrite (stored_after_add td w st u Hu), Hu; cbn.
  match goal with |- context [if ?b then _ else _] => destruct b end; reflexivity.
Qed.

Lemma JS_period_after_add (yearMonth : string) (td : TransactionData) (w : World)
    (st : DataManager) (u : UserData) :
  getCurrentUser st = Some u ->
  JS.getTransactionsByPeriod yearMonth (snd (addTransaction td w st))
  = ((if Str.startsWith yearMonth (date (newTransaction td w))
     then [newTransaction td w] else [])
    ++ JS.getTransactionsByPeriod yearMonth st)%list.
Proof.
  intros Hu; unfold JS.getTransactionsByPeriod.
  rewrite (stored_after_add td w st u Hu), Hu; cbn.
  match goal with |- context [if ?b then _ else _] => destruct b end; reflexivity.
Qed.

(** X10. What [addTransaction] does to the period index: the transactions
    of a period after the call are the new record, when its date is in
    the period, followed by the transactions the period had; the other
    periods are as they were. This holds of both files, each with its
    own test of the date, and whether or not the write to the storage
    went through. *)
Theorem period_after_add (yearMonth : string) (td : TransactionData) (w : World)
    (st : DataManager) (u : UserData) :
  getCurrentUser st = Some u ->
  TS.getTransactionsByPeriod yearMonth (snd (addTransaction td w st))
  = ((if String.eqb (Str.substring 0 7 (date (newTransaction td w)))
                    (Str.trim yearMonth)
     then [newTransaction td w] else [])
    ++ TS.getTransactionsByPeriod yearMonth st)%list
  /\ JS.getTransactionsByPeriod yearMonth (snd (addTransaction td w st))
     = ((if Str.startsWith yearMonth (date (newTransaction td w))
         then [newTransaction td w] else [])
        ++ JS.getTransactionsByPeriod yearMonth st)%list.
Proof.
  intros Hu; split;
    [apply (TS_period_after_add _ _ _ _ u Hu) | apply (JS_period_after_add _ _ _ _ u Hu)].
Qed.

Lemma period_after_add_witness :
  TS.getTransactionsByPeriod "2024-01"
    (snd (addTransaction Sample.snack (Sample.world "4") Sample.with_freelance))
  = [Sample.rec_snack; Sample.rec_freelance; Sample.rec_groceries]
  /\ TS.getTransactionsByPeriod "2024-02"
       (snd (addTransaction Sample.snack (Sample.world "4") Sample.with_freelance))
     = [].
Proof.
  pose (u := set_financial
               (set_transactions
                  (fun _ => [Sample.rec_freelance; Sample.rec_groceries]))
               Sample.ana_with_income).
  split.
  - rewrite (proj1 (period_after_add "2024-01" Sample.snack (Sample.world "4")
                      Sample.with_freelance u ltac:(vm_compute; reflexivity))).
    vm_compute; reflexivity.
  - rewrite (proj1 (period_after_add "2024-02" Sample.snack (Sample.world "4")
                      Sample.with_freelance u ltac:(vm_compute; reflexivity))).
    vm_compute; reflexivity.
Defined.

Lemma period_char_not_T (c : ascii) :
  Str.is_digit c = true \/ Ascii.eqb c "-" = true -> Ascii.eqb c "T" = false.
Proof.
  destruct c as [[|] [|] [|] [|] [|] [|] [|] [|]];
    vm_compute; intros [H|H]; congruence.
Qed.

(** The date of the clock's reading starts with the month of the
    reading. *)
Lemma leading_today (k rest : string) :
  is_period_key k = true ->
  leading 7 (Str.split_head "T" (k +:+ rest)) = k.
Proof.
  destruct k as [|y1 [|y2 [|y3 [|y4 [|h [|m1 [|m2 [|z r]]]]]]]];
    intros H; cbv beta iota delta [is_period_key] in H; try discriminate H.
  do 6 (apply andb_prop in H; destruct H as [H ?]).
  change (String y1 (String y2 (String y3 (String y4 (String h
            (String m1 (String m2 "")))))) +:+ rest)
    with (String y1 (String y2 (String y3 (String y4 (String h
            (String m1 (String m2 rest))))))).
  cbn [Str.split_head].
  rewrite !period_char_not_T by auto.
  reflexivity.
Qed.

(** X11. A transaction added without a date (none, or the empty text) is
    dated by the clock: its date is the clock's reading up to the [T],
    and when the reading starts with a period key the record is the
    first transaction of that period. *)
Theorem addTransaction_dated_today (k rest : string) (td : TransactionData)
    (w : World) (st : DataManager) (u : UserData) :
  getCurrentUser st = Some u ->
  str_or_else (td_date td) "" = "" ->
  is_period_key k = true ->
  toISOString w 0%nat = k +:+ rest ->
  date (newTransaction td w) = Str.split_head "T" (toISOString w 0%nat)
  /\ TS.getTransactionsByPeriod k (snd (addTransaction td w st))
     = newTransaction td w :: TS.getTransactionsByPeriod k st.
Proof.
  intros Hu Hd Hk Hw.
  assert (Hdate : date (newTransaction td w)
                  = Str.split_head "T" (toISOString w 0%nat)).
  { unfold newTransaction; cbn [date].
    destruct (td_date td) as [[|c r]|]; try discriminate Hd; reflexivity. }
  split; [exact Hdate|].
  rewrite (TS_period_after_add k td w st u Hu).
  rewrite Hdate, Hw, substring_leading, (leading_today k rest Hk),
    (trim_period_key k Hk), String.eqb_refl.
  reflexivity.
Qed.

Lemma addTransaction_dated_today_witness :
  date (newTransaction Sample.freelance (Sample.world "3")) = "2024-01-20"
  /\ TS.getTransactionsByPeriod "2024-02"
       (snd (addTransaction
               {| td_description := Some "Coffee"; td_amount := Host.JString "3";
                  td_type := "expense"; td_category := None; td_date := None |}
               (Sample.world "4") Sample.with_freelance))
     = [ {| id := "ls5x44fzyo82mvyr"; description := Some "Coffee";
            amount := Num.of_Z 3; type := "expense"; category := "Outros";
            date := "2024-02-03"; createdAt := "2024-02-03T12:00:00.000Z" |} ].
Proof.
  split; [reflexivity|].
  rewrite (proj2 (addTransaction_dated_today "2024-02" "-03T12:00:00.000Z"
                    {| td_description := Some "Coffee";
                       td_amount := Host.JString "3";
                       td_type := "expense"; td_category := None;
                       td_date := None |}
                    (Sample.world "4") Sample.with_freelance
                    (set_financial
                       (set_transactions
                          (fun _ => [Sample.rec_freelance; Sample.rec_groceries]))
                       Sample.ana_with_income)
                    ltac:(vm_compute; reflexivity) eq_refl eq_refl eq_refl)).
  vm_compute; reflexivity.
Defined.

Lemma or_else_idempotent (x : number) :
  Num.or_else (Num.or_else x Num.zero) Num.zero = Num.or_else x Num.zero.
Proof. destruct x as [[|]|[|]| |[|] m e]; reflexivity. Qed.

Lemma or_else_parseFloat_number (x : number) :
  Num.or_else (Host.parseFloat_number x) Num.zero = Num.or_else x Num.zero.
Proof. destruct x as [[|]|[|]| |[|] m e]; reflexivity. Qed.

Lemma getMonthlyIncome_insert (p q : string) (v : number) (w : World)
    (st : DataManager) (u : UserData) :
  getCurrentUser st = Some u ->
  getMonthlyIncome q
    (snd (saveData w
            (update_currentUser
               (set_financial (set_monthlyIncomes (<[p := Num.or_else v Num.zero]>)))
               st)))
  = if String.eqb p q then Num.or_else v Num.zero else getMonthlyIncome q st.
Proof.
  intros Hu; unfold getMonthlyIncome.
  rewrite saveData_getCurrentUser, getCurrentUser_update, Hu; cbn.
  destruct (String.eqb_spec p q) as [->|Hne].
  - rewrite lookup_insert_eq; apply or_else_idempotent.
  - rewrite lookup_insert_ne by assumption; reflexivity.
Qed.

(** X12. [getMonthlyIncome] reads back what [setMonthlyIncome] stored:
    after [setMonthlyIncome(p, amount)] the income of [p] is the amount
    as parsed, or [0] when that is [NaN] or a zero, and the income of
    every other period is what it was; the same holds when the write to
    the storage fails. *)
Theorem getMonthlyIncome_after_set (p q : string) (w : World) (st : DataManager)
    (u : UserData) :
  getCurrentUser st = Some u ->
  (forall amount : number,
      getMonthlyIncome q (snd (TS.setMonthlyIncome p amount w st))
      = if String.eqb p q then Num.or_else amount Num.zero
        else getMonthlyIncome q st)
  /\ (forall amount : Host.jsval,
        getMonthlyIncome q (snd (JS.setMonthlyIncome p amount w st))
        = if String.eqb p q then Num.or_else (Host.parseFloat amount) Num.zero
          else getMonthlyIncome q st).
Proof.
  intros Hu; split; intros amount.
  - unfold TS.setMonthlyIncome; rewrite Hu.
    rewrite or_else_parseFloat_number.
    apply (getMonthlyIncome_insert p q amount w st u Hu).
  - unfold JS.setMonthlyIncome; rewrite Hu.
    apply (getMonthlyIncome_insert p q _ w st u Hu).
Qed.

Lemma getMonthlyIncome_after_set_witness :
  getMonthlyIncome "2024-01"
    (snd (TS.setMonthlyIncome "2024-02" (Num.of_Z 7000) (Sample.world "1")
            Sample.with_income))
  = Num.of_Z 5000
  /\ getMonthlyIncome "2024-02"
       (snd (JS.setMonthlyIncome "2024-02" (Host.JString "12.5") (Trace.full "1")
               Sample.with_income))
     = Host.parseFloat_string "12.5".
Proof.
  split.
  - rewrite (proj1 (getMonthlyIncome_after_set "2024-02" "2024-01"
                      (Sample.world "1") Sample.with_income
                      Sample.ana_with_income ltac:(vm_compute; reflexivity))).
    vm_compute; reflexivity.
  - rewrite (proj2 (getMonthlyIncome_after_set "2024-02" "2024-02"
                      (Trace.full "1") Sample.with_income
                      Sample.ana_with_income ltac:(vm_compute; reflexivity))).
    vm_compute; reflexivity.
Defined.

End Compose.

(* ===================================================================== *)
(** * Categories, and what a result of [true] means *)
(* ===================================================================== *)

Module Categories.

Import DM Spec StoreFacts Run.

Lemma includes_In (x : string) (l : list string) :
  includes x l = true <-> In x l.
Proof.
  unfold includes; rewrite existsb_exists; split.
  - intros (y & Hy & E); apply String.eqb_eq in E; subst; assumption.
  - intros H; exists x; split; [assumption | apply String.eqb_refl].
Qed.

(** X13. [addCategory] for the active account. A name that is empty or
    all white space, and a name the account already has, are refused:
    the call returns [false] and changes nothing. Any other name is put
    at the end of the categories exactly as given (it is not trimmed),
    nothing else of the account changes, and the call returns whether
    the write to the storage went through. *)
Theorem addCategory_cases (categoryName : string) (w : World) (st : DataManager)
    (u : UserData) :
  getCurrentUser st = Some u ->
  (Str.trim categoryName = "" \/ In categoryName (categories (financial u)) ->
   addCategory categoryName w st = (false, st))
  /\ (Str.trim categoryName <> "" ->
      ~ In categoryName (categories (financial u)) ->
      fst (addCategory categoryName w st) = setItem_ok w
      /\ getCurrentUser (snd (addCategory categoryName w st))
         = Some (set_financial
                   (set_categories (fun l => (l ++ [categoryName])%list)) u)
      /\ getCategories (snd (addCategory categoryName w st))
         = (categories (financial u) ++ [categoryName])%list).
Proof.
  intros Hu; unfold addCategory; rewrite Hu; split.
  - intros [Hb|Hin].
    + rewrite Hb; reflexivity.
    + destruct (Str.trim categoryName); [reflexivity|].
      rewrite (proj2 (includes_In _ _) Hin); reflexivity.
  - intros Hb Hnew.
    destruct (Str.trim categoryName) as [|c r]; [congruence|].
    destruct (includes categoryName (categories (financial u))) eqn:E;
      [apply includes_In in E; contradiction|].
    rewrite saveData_fst; split; [reflexivity|].
    unfold getCategories.
    rewrite saveData_getCurrentUser, getCurrentUser_update, Hu.
    split; reflexivity.
Qed.

Lemma addCategory_cases_witness :
  addCategory "   " (Sample.world "7") Sample.registered = (false, Sample.registered)
  /\ addCategory "Lazer" (Sample.world "7") Sample.registered
     = (false, Sample.registered)
  /\ getCategories (snd (addCategory " Pets" (Sample.world "7") Sample.registered))
     = (defaultCategories ++ [" Pets"])%list.
Proof.
  destruct (addCategory_cases "   " (Sample.world "7") Sample.registered
              (createUserStructure "YUBiLmNvbQ" Sample.ana (Sample.world "0"))
              ltac:(vm_compute; reflexivity)) as [H1 _].
  destruct (addCategory_cases "Lazer" (Sample.world "7") Sample.registered
              (createUserStructure "YUBiLmNvbQ" Sample.ana (Sample.world "0"))
              ltac:(vm_compute; reflexivity)) as [H2 _].
  destruct (addCategory_cases " Pets" (Sample.world "7") Sample.registered
              (createUserStructure "YUBiLmNvbQ" Sample.ana (Sample.world "0"))
              ltac:(vm_compute; reflexivity)) as [_ H3].
  split; [apply H1; left; reflexivity|].
  split; [apply H2; right; cbn; tauto|].
  apply H3; [vm_compute; discriminate|].
  cbn; intros H; repeat (destruct H as [H|H]; [discriminate H|]); exact H.
Defined.

(** X14. A second [addCategory] with the same name never does anything:
    whatever the first call did, the second returns [false] and leaves
    the manager as the first left it. *)
Theorem addCategory_twice (categoryName : string) (w w' : World)
    (st : DataManager) :
  addCategory categoryName w' (snd (addCategory categoryName w st))
  = (false, snd (addCategory categoryName w st)).
Proof.
  unfold addCategory at 2 3.
  destruct (getCurrentUser st) as [u|] eqn:Hu;
    [|cbn [snd]; unfold addCategory; rewrite Hu; reflexivity].
  destruct (Str.trim categoryName) as [|c r] eqn:Hb;
    [cbn [snd]; unfold addCategory; rewrite Hu, Hb; reflexivity|].
  destruct (includes categoryName (categories (financial u))) eqn:E;
    [cbn [snd]; unfold addCategory; rewrite Hu, Hb, E; reflexivity|].
  unfold addCategory.
  rewrite saveData_getCurrentUser, getCurrentUser_update, Hu, Hb.
  cbn [fmap option_fmap option_map financial set_financial categories
         set_categories].
  replace (includes categoryName (categories (financial u) ++ [categoryName]))
    with true; [reflexivity|].
  symmetry; apply includes_In, in_or_app; right; left; reflexivity.
Qed.

(** X15. A result of [true] means the data are written. When
    [registerUser] reports success, when [setMonthlyIncome],
    [removeTransaction] or [addCategory] returns [true], and when
    [addTransaction] returns the record, the text in the storage is the
    text [JSON.stringify] makes of the whole of the manager's data as
    they are after the call. In that text a number that is [NaN] or
    infinite stands as [null] and [-0] as [0]. *)
Theorem true_means_saved (w : World) (st : DataManager) :
  (forall userData,
      success (fst (registerUser userData w st)) = true ->
      Json.stored (snd (registerUser userData w st))
      = Some (Json.stringify (data (snd (registerUser userData w st)))))
  /\ (forall p x,
        fst (TS.setMonthlyIncome p x w st) = true ->
        Json.stored (snd (TS.setMonthlyIncome p x w st))
        = Some (Json.stringify (data (snd (TS.setMonthlyIncome p x w st)))))
  /\ (forall p v,
        fst (JS.setMonthlyIncome p v w st) = true ->
        Json.stored (snd (JS.setMonthlyIncome p v w st))
        = Some (Json.stringify (data (snd (JS.setMonthlyIncome p v w st)))))
  /\ (forall td,
        is_Some (fst (addTransaction td w st)) ->
        Json.stored (snd (addTransaction td w st))
        = Some (Json.stringify (data (snd (addTransaction td w st)))))
  /\ (forall tid,
        fst (removeTransaction tid w st) = true ->
        Json.stored (snd (removeTransaction tid w st))
        = Some (Json.stringify (data (snd (removeTransaction tid w st)))))
  /\ (forall n,
        fst (addCategory n w st) = true ->
        Json.stored (snd (addCategory n w st))
        = Some (Json.stringify (data (snd (addCategory n w st)))))
  /\ (forall x,
        Json.stable_number x = false ->
        Json.of_number x = Json.JNull \/ Json.of_number x = Json.JNum Num.zero).
Proof.
  assert (Hsave : forall s,
             fst (saveData w s) = true ->
             Json.stored (snd (saveData w s))
             = Some (Json.stringify (data (snd (saveData w s))))).
  { intros s; rewrite saveData_fst; intros H; unfold Json.stored.
    rewrite (saveData_persists w s H); reflexivity. }
  repeat split.
  - intros userData; unfold registerUser.
    destruct (users (data st) !! _); [discriminate|].
    unfold saveData; cbn [setItem_ok data]; destruct (setItem_ok w);
      [reflexivity | discriminate].
  - intros p x; unfold TS.setMonthlyIncome.
    destruct (getCurrentUser st); [apply Hsave | discriminate].
  - intros p v; unfold JS.setMonthlyIncome.
    destruct (getCurrentUser st); [apply Hsave | discriminate].
  - intros td; unfold addTransaction.
    destruct (getCurrentUser st); [|intros [? H]; discriminate H].
    pose proof (Hsave (update_currentUser
       (set_financial (set_transactions (cons (newTransaction td w)))) st)) as H.
    destruct (saveData w _) as [[|] st2]; cbn [fst snd] in *;
      [intros _; apply H; reflexivity | intros [? H']; discriminate H'].
  - intros tid; unfold removeTransaction.
    destruct (getCurrentUser st); [|discriminate].
    destruct (findIndex tid _); [apply Hsave | discriminate].
  - intros n; unfold addCategory.
    destruct (getCurrentUser st); [|discriminate].
    destruct (Str.trim n); [discriminate|].
    destruct (includes n _); [discriminate | apply Hsave].
  - apply JsonFacts.of_number_unstable.
Qed.

(** After the transaction without a number is added to
    [Sample.with_snack], the text holds [null] for its amount. *)
Lemma true_means_saved_witness :
  (Json.stored Sample.snack_then_broken
     ≫= fun b => Json.j_users b !! "YUBiLmNvbQ"
     ≫= fun u => Some (map Json.j_amount
                         (Json.j_transactions (Json.j_financial u))))
  = Some [Json.JNull; Json.JNum (Num.of_Z 5)].
Proof.
  destruct (true_means_saved (Sample.world "5") Sample.with_snack)
    as (_ & _ & _ & H & _).
  unfold Sample.snack_then_broken.
  rewrite (H Sample.broken ltac:(vm_compute; eauto)).
  vm_compute; reflexivity.
Defined.

End Categories.

(* ===================================================================== *)
(** * What every run keeps *)
(* ===================================================================== *)

Module Invariants.

Import DM Spec StoreFacts Run.

Lemma defaultCategories_NoDup : NoDup defaultCategories.
Proof.
  apply (bool_decide_unpack _); vm_compute; exact I.
Qed.

Lemma account_ok_new (userData : RegisterData) (w : World) :
  account_ok (generateUserId (rd_email userData))
    (createUserStructure (generateUserId (rd_email userData)) userData w).
Proof.
  repeat split; cbn.
  - apply defaultCategories_NoDup.
  - exists []; reflexivity.
  - intros p x H; rewrite lookup_empty in H; discriminate.
Qed.

Lemma account_ok_lastLogin (k t : string) (u : UserData) :
  account_ok k u -> account_ok k (set_lastLogin t u).
Proof. intros H; exact H. Qed.

Lemma account_ok_transactions (f : list Transaction -> list Transaction)
    (k : string) (u : UserData) :
  account_ok k u -> account_ok k (set_financial (set_transactions f) u).
Proof. intros H; exact H. Qed.

Lemma account_ok_income (p : string) (v : number) (k : string) (u : UserData) :
  account_ok k u ->
  account_ok k (set_financial
                  (set_monthlyIncomes (<[p := Num.or_else v Num.zero]>)) u).
Proof.
  intros (H1 & H2 & H3 & H4 & H5); repeat split; try assumption.
  intros q x; cbn.
  destruct (decide (p = q)) as [->|Hne].
  - rewrite lookup_insert_eq; intros [= <-]; apply Compose.or_else_idempotent.
  - rewrite lookup_insert_ne by assumption; apply H5.
Qed.

Lemma account_ok_category (n : string) (k : string) (u : UserData) :
  includes n (categories (financial u)) = false ->
  account_ok k u ->
  account_ok k (set_financial (set_categories (fun l => (l ++ [n])%list)) u).
Proof.
  intros Hn (H1 & H2 & H3 & [added H4] & H5); repeat split; try assumption.
  - change (NoDup (categories (financial u) ++ [n])).
    apply NoDup_app; split; [assumption|]; split; [|apply NoDup_singleton].
    intros x Hx Hx'; apply list_elem_of_singleton in Hx'; subst x.
    apply list_elem_of_In, Categories.includes_In in Hx; congruence.
  - exists (added ++ [n])%list.
    change (categories (financial u) ++ [n]
            = defaultCategories ++ (added ++ [n]))%list.
    rewrite H4; symmetry; apply app_assoc.
Qed.

(** A write through [currentUser] that keeps the current account in
    order keeps the manager consistent. *)
Lemma consistent_update (f : UserData -> UserData) (w : World) (st : DataManager) :
  consistent st ->
  (forall k u, getCurrentUser st = Some u -> account_ok k u -> account_ok k (f u)) ->
  consistent (snd (saveData w (update_currentUser f st))).
Proof.
  intros (H1 & H2 & H3 & H4) Hf.
  unfold consistent.
  rewrite saveData_currentUser, saveData_data.
  unfold update_currentUser.
  destruct (currentUser st) as [k|] eqn:E;
    [|cbn; rewrite E; split; [|split; [|split]]; assumption].
  cbn; rewrite ?E; split; [assumption|]; split; [|split; [|assumption]].
  - intros j [= <-]; rewrite lookup_alter_eq.
    destruct (H2 k eq_refl) as [u ->]; eexists; reflexivity.
  - intros j u.
    destruct (decide (k = j)) as [<-|Hne].
    + rewrite lookup_alter_eq.
      destruct (users (data st) !! k) as [u'|] eqn:Eu; [|discriminate].
      intros [= <-]; apply (Hf k u'); [|apply H3; assumption].
      unfold getCurrentUser; rewrite E; assumption.
    + rewrite lookup_alter_ne by assumption; apply H3.
Qed.

Lemma start_consistent : consistent start.
Proof.
  repeat split; cbn; try reflexivity; try discriminate.
  all: intros k u H; rewrite lookup_empty in H; discriminate.
Qed.

Lemma addTransaction_snd (td : TransactionData) (w : World) (st : DataManager) :
  snd (addTransaction td w st)
  = match getCurrentUser st with
    | None => st
    | Some _ =>
        snd (saveData w
               (update_currentUser
                  (set_financial (set_transactions (cons (newTransaction td w))))
                  st))
    end.
Proof.
  unfold addTransaction; destruct (getCurrentUser st); [|reflexivity].
  destruct (saveData w _) as [ok st2]; reflexivity.
Qed.

Lemma registerUser_snd (userData : RegisterData) (w : World) (st : DataManager) :
  snd (registerUser userData w st)
  = match users (data st) !! generateUserId (rd_email userData) with
    | Some _ => st
    | None =>
        snd (saveData w
               {| data := {| users :=
                               <[generateUserId (rd_email userData) :=
                                   createUserStructure
                                     (generateUserId (rd_email userData))
                                     userData w]> (users (data st));
                             currentUserId := Some (generateUserId (rd_email userData));
                             version := version (data st) |};
                  currentUser := Some (generateUserId (rd_email userData));
                  localStorage := localStorage st |})
    end.
Proof.
  unfold registerUser; destruct (users (data st) !! _); [reflexivity|].
  destruct (saveData w _) as [[|] st2]; reflexivity.
Qed.

Lemma loginUser_snd (email password : string) (w : World) (st : DataManager) :
  snd (loginUser email password w st)
  = match users (data st) !! generateUserId email with
    | None => st
    | Some _ =>
        snd (saveData w
               {| data := {| users :=
                               alter (set_lastLogin (toISOString w 0%nat))
                                 (generateUserId email) (users (data st));
                             currentUserId := Some (generateUserId email);
                             version := version (data st) |};
                  currentUser := Some (generateUserId email);
                  localStorage := localStorage st |})
    end.
Proof.
  unfold loginUser; destruct (users (data st) !! _); [|reflexivity].
  destruct (saveData w _) as [ok st2]; reflexivity.
Qed.

(** Every call keeps the manager consistent. *)
Lemma exec_consistent (c : Call) (w : World) (st : DataManager) :
  consistent st -> consistent (exec c w st).
Proof.
  intros Hst; pose proof Hst as (H1 & H2 & H3 & H4).
  destruct c as [userData|e pw| |p x|p v|td|tid|n]; cbn [exec].
  - rewrite registerUser_snd.
    destruct (users (data st) !! _) eqn:E; [assumption|].
    unfold consistent; rewrite saveData_currentUser, saveData_data; cbn.
    split; [reflexivity|]; split; [|split; [|assumption]].
    + intros k [= <-]; rewrite lookup_insert_eq; eauto.
    + intros k u.
      destruct (decide (generateUserId (rd_email userData) = k)) as [<-|Hne].
      * rewrite lookup_insert_eq; intros [= <-]; apply account_ok_new.
      * rewrite lookup_insert_ne by assumption; apply H3.
  - rewrite loginUser_snd.
    destruct (users (data st) !! _) as [u0|] eqn:E; [|assumption].
    unfold consistent; rewrite saveData_currentUser, saveData_data; cbn.
    split; [reflexivity|]; split; [|split; [|assumption]].
    + intros k [= <-]; rewrite lookup_alter_eq, E; eauto.
    + intros k u.
      destruct (decide (generateUserId e = k)) as [<-|Hne].
      * rewrite lookup_alter_eq, E; intros [= <-].
        apply account_ok_lastLogin, H3; assumption.
      * rewrite lookup_alter_ne by assumption; apply H3.
  - unfold logout, consistent; rewrite saveData_currentUser, saveData_data; cbn.
    split; [reflexivity|]; split; [discriminate|]; split; assumption.
  - unfold TS.setMonthlyIncome.
    destruct (getCurrentUser st) as [u0|]; [|assumption].
    apply consistent_update; [assumption|].
    intros k u _; apply account_ok_income.
  - unfold JS.setMonthlyIncome.
    destruct (getCurrentUser st) as [u0|]; [|assumption].
    apply consistent_update; [assumption|].
    intros k u _; apply account_ok_income.
  - rewrite addTransaction_snd.
    destruct (getCurrentUser st) as [u0|]; [|assumption].
    apply consistent_update; [assumption|].
    intros k u _; apply account_ok_transactions.
  - unfold removeTransaction.
    destruct (getCurrentUser st) as [u0|]; [|assumption].
    destruct (findIndex tid _) as [i|]; [|assumption].
    apply consistent_update; [assumption|].
    intros k u _; apply account_ok_transactions.
  - unfold addCategory.
    destruct (getCurrentUser st) as [u0|] eqn:Hu; [|assumption].
    destruct (Str.trim n); [assumption|].
    destruct (includes n (categories (financial u0))) eqn:E;
      [assumption|].
    apply consistent_update; [assumption|].
    intros k u Hu'; rewrite Hu in Hu'; injection Hu' as <-.
    apply account_ok_category; assumption.
Qed.

Lemma run_consistent (calls : list (Call * World)) :
  forall st, consistent st -> consistent (run calls st).
Proof.
  induction calls as [|[c w] r IH]; intros st H; [exact H|].
  apply IH, exec_consistent, H.
Qed.

(** X16. The session of a run. In every state a run of calls reaches from
    an empty storage, the [currentUserId] that is written to the storage
    is the key of the account [currentUser] points to, that account
    exists, and [isLoggedIn()] is [true] exactly when a [currentUserId]
    is set; the version tag is still '2.0.0'. *)
Theorem run_session (calls : list (Call * World)) :
  currentUserId (data (run calls start)) = currentUser (run calls start)
  /\ (isLoggedIn (run calls start) = true
      <-> currentUserId (data (run calls start)) <> None)
  /\ version (data (run calls start)) = "2.0.0".
Proof.
  destruct (run_consistent calls start start_consistent) as (H1 & H2 & _ & H4).
  split; [assumption|]; split; [|assumption].
  rewrite H1; unfold isLoggedIn, getCurrentUser.
  destruct (currentUser (run calls start)) as [k|]; [|split; congruence].
  destruct (H2 k eq_refl) as [u ->]; split; congruence.
Qed.

(** X17. The keys of the accounts. In every state a run reaches from an
    empty storage, an account is stored under the id derived from the
    e-mail of its profile, and its own [id] field is that key. *)
Theorem run_accounts_keyed (calls : list (Call * World)) (k : string)
    (u : UserData) :
  users (data (run calls start)) !! k = Some u ->
  user_id u = k /\ generateUserId (email (profile u)) = k.
Proof.
  intros H.
  destruct (run_consistent calls start start_consistent) as (_ & _ & H3 & _).
  destruct (H3 k u H) as (H1 & H2 & _); split; assumption.
Qed.

Lemma run_accounts_keyed_witness :
  run Trace.january start = Sample.with_freelance
  /\ user_id (set_financial
                (set_transactions
                   (fun _ => [Sample.rec_freelance; Sample.rec_groceries]))
                Sample.ana_with_income) = "YUBiLmNvbQ".
Proof.
  split; [vm_compute; reflexivity|].
  apply (run_accounts_keyed Trace.january "YUBiLmNvbQ").
  vm_compute; reflexivity.
Defined.

(** X18. The categories of an account. In every state a run reaches from
    an empty storage, the categories of an account have no duplicates
    and begin with the eight default categories in their order: a
    category is never removed, renamed or moved. *)
Theorem run_categories (calls : list (Call * World)) (k : string) (u : UserData) :
  users (data (run calls start)) !! k = Some u ->
  NoDup (categories (financial u))
  /\ exists added, categories (financial u) = (defaultCategories ++ added)%list.
Proof.
  intros H.
  destruct (run_consistent calls start start_consistent) as (_ & _ & H3 & _).
  destruct (H3 k u H) as (_ & _ & H1 & H2 & _); split; assumption.
Qed.

Lemma run_categories_witness :
  NoDup (defaultCategories ++ ["Pets"])%list.
Proof.
  refine (proj1 (run_categories
                   [ (CallRegister Sample.ana, Sample.world "0");
                     (CallAddCategory "Pets", Sample.world "1");
                     (CallAddCategory "Pets", Sample.world "2") ]
                   "YUBiLmNvbQ"
                   (set_financial
                      (set_categories (fun l => (l ++ ["Pets"])%list))
                      (createUserStructure "YUBiLmNvbQ" Sample.ana
                         (Sample.world "0")))
                   _)).
  vm_compute; reflexivity.
Defined.

(** X19. The fixed incomes of an account. In every state a run reaches
    from an empty storage, no stored income is [NaN] or a negative zero,
    so that [getMonthlyIncome] returns for the current account exactly
    what is stored under the period, and [0] where nothing is. *)
Theorem run_incomes (calls : list (Call * World)) (u : UserData) (p : string) :
  getCurrentUser (run calls start) = Some u ->
  getMonthlyIncome p (run calls start)
  = default Num.zero (monthlyIncomes (financial u) !! p)
  /\ Num.isNaN (getMonthlyIncome p (run calls start)) = false.
Proof.
  intros Hu.
  destruct (run_consistent calls start start_consistent) as (_ & _ & H3 & _).
  assert (Hk : exists k, users (data (run calls start)) !! k = Some u).
  { revert Hu; unfold getCurrentUser.
    destruct (currentUser (run calls start)) as [k|]; [eauto | discriminate]. }
  destruct Hk as [k Hk]; destruct (H3 k u Hk) as (_ & _ & _ & _ & H5).
  unfold getMonthlyIncome; rewrite Hu.
  destruct (monthlyIncomes (financial u) !! p) as [x|] eqn:E; cbn;
    [|split; reflexivity].
  rewrite (H5 p x E); split; [reflexivity|].
  rewrite <- (H5 p x E); apply NumFacts.or_else_not_NaN.
Qed.

Lemma run_incomes_witness :
  getMonthlyIncome "2024-01" (run Trace.january start) = Num.of_Z 5000
  /\ getMonthlyIncome "2024-02" (run Trace.january start) = Num.zero.
Proof.
  pose (u := set_financial
               (set_transactions
                  (fun _ => [Sample.rec_freelance; Sample.rec_groceries]))
               Sample.ana_with_income).
  split.
  - rewrite (proj1 (run_incomes Trace.january u "2024-01"
                      ltac:(vm_compute; reflexivity))).
    vm_compute; reflexivity.
  - rewrite (proj1 (run_incomes Trace.january u "2024-02"
                      ltac:(vm_compute; reflexivity))).
    vm_compute; reflexivity.
Defined.

(** X20. No call deletes an account: an account that exists before a call
    exists after it, whatever the call and whatever the host answers. *)
Theorem exec_keeps_accounts (c : Call) (w : World) (st : DataManager) (k : string) :
  is_Some (users (data st) !! k) ->
  is_Some (users (data (exec c w st)) !! k).
Proof.
  intros Hk.
  assert (Hup : forall f, is_Some (users (data (snd (saveData w
                                     (update_currentUser f st)))) !! k)).
  { intros f; rewrite saveData_data; unfold update_currentUser.
    destruct (currentUser st) as [j|]; [|assumption]; cbn.
    destruct (decide (j = k)) as [->|Hne].
    - rewrite lookup_alter_eq; destruct Hk as [u ->]; eexists; reflexivity.
    - rewrite lookup_alter_ne by assumption; assumption. }
  destruct c as [userData|e pw| |p x|p v|td|tid|n]; cbn [exec].
  - rewrite registerUser_snd.
    destruct (users (data st) !! generateUserId _) eqn:E; [assumption|].
    rewrite saveData_data; cbn.
    destruct (decide (generateUserId (rd_email userData) = k)) as [<-|Hne].
    + rewrite lookup_insert_eq; eauto.
    + rewrite lookup_insert_ne by assumption; assumption.
  - rewrite loginUser_snd.
    destruct (users (data st) !! generateUserId _) eqn:E; [|assumption].
    rewrite saveData_data; cbn.
    destruct (decide (generateUserId e = k)) as [<-|Hne].
    + rewrite lookup_alter_eq, E; eauto.
    + rewrite lookup_alter_ne by assumption; assumption.
  - unfold logout; rewrite saveData_data; assumption.
  - unfold TS.setMonthlyIncome; destruct (getCurrentUser st); [apply Hup | assumption].
  - unfold JS.setMonthlyIncome; destruct (getCurrentUser st); [apply Hup | assumption].
  - rewrite addTransaction_snd; destruct (getCurrentUser st); [apply Hup | assumption].
  - unfold removeTransaction; destruct (getCurrentUser st); [|assumption].
    destruct (findIndex tid _); [apply Hup | assumption].
  - unfold addCategory; destruct (getCurrentUser st); [|assumption].
    destruct (Str.trim n); [assumption|].
    destruct (includes n _); [assumption | apply Hup].
Qed.

Lemma exec_keeps_accounts_witness :
  is_Some (users (data (exec CallLogout (Sample.world "6") Sample.with_freelance))
             !! "YUBiLmNvbQ").
Proof.
  apply exec_keeps_accounts; vm_compute; eauto.
Defined.

(** X21. Reloading the page. Take a state a run reaches from an empty
    storage, in which the text in the storage is the text of the data
    and the data hold no amount or income that is [NaN], infinite or
    [-0]; let [d'] be what [JSON.parse] returns for that text. The
    constructor of [DataManager.ts] builds the same manager from it:
    the same data and, unless the current account has the empty id (the
    id of the empty e-mail), the same session. The constructor of
    [DataManager.js] loads the same data but nobody is logged in. *)
Theorem reload (calls : list (Call * World)) (d' : AppData) :
  Json.stored (run calls start) = Some (Json.stringify (data (run calls start))) ->
  Json.stable (data (run calls start)) ->
  Json.reads (Json.stringify (data (run calls start))) d' ->
  data (TS.init (Some d')) = data (run calls start)
  /\ Json.stored (TS.init (Some d')) = Json.stored (run calls start)
  /\ (currentUser (run calls start) <> Some "" ->
      currentUser (TS.init (Some d')) = currentUser (run calls start))
  /\ data (JS.init (Some d')) = data (run calls start)
  /\ isLoggedIn (JS.init (Some d')) = false.
Proof.
  intros Hs Hd Hr.
  destruct (run_consistent calls start start_consistent) as (H1 & H2 & _ & _).
  rewrite (JsonFacts.reads_stringify _ _ Hd Hr).
  split; [reflexivity|].
  split; [rewrite Hs; reflexivity|].
  split; [|split; reflexivity].
  intros Hne; unfold TS.init; cbn.
  rewrite H1.
  destruct (currentUser (run calls start)) as [[|c r]|] eqn:E;
    [congruence| |reflexivity].
  destruct (H2 _ eq_refl) as [u ->]; reflexivity.
Qed.

Lemma reload_witness :
  currentUser (TS.init (Some (data Sample.with_freelance)))
  = currentUser Sample.with_freelance
  /\ isLoggedIn (JS.init (Some (data Sample.with_freelance))) = false.
Proof.
  assert (Hd : Json.stable (data (run Trace.january start))).
  { unfold Json.stable, Json.stable_financial.
    apply (bool_decide_unpack _); vm_compute; exact I. }
  destruct (reload Trace.january (data Sample.with_freelance)
              ltac:(vm_compute; reflexivity) Hd
              (conj Hd eq_refl))
    as (_ & _ & H1 & _ & H3).
  split; [apply H1; vm_compute; discriminate | exact H3].
Defined.

End Invariants.

(* ===================================================================== *)
(** * More of the summary and of the comparison *)
(* ===================================================================== *)

Module SummaryMore.

Import DM Spec NumFacts SummaryFacts.

Lemma or_else_add_zero (x : number) :
  Num.add (Num.or_else x Num.zero) Num.zero = Num.or_else x Num.zero
  /\ Num.sub (Num.or_else x Num.zero) Num.zero = Num.or_else x Num.zero.
Proof. destruct x as [[|]|[|]| |[|] m e]; split; reflexivity. Qed.

Lemma getMonthlyIncome_add_zero (p : string) (st : DataManager) :
  Num.add (getMonthlyIncome p st) Num.zero = getMonthlyIncome p st
  /\ Num.sub (getMonthlyIncome p st) Num.zero = getMonthlyIncome p st.
Proof.
  unfold getMonthlyIncome.
  destruct (getCurrentUser st) as [u|]; [|split; reflexivity].
  destruct (monthlyIncomes (financial u) !! p) as [x|]; [|split; reflexivity].
  apply or_else_add_zero.
Qed.

(** X22. The summary of a period without transactions. With an active
    account, when no stored transaction is in the period, the summary
    has the fixed income of the period as [monthlyIncome], as
    [totalIncome] and as [balance], [0] as [totalExpenses], a count of
    [0], no category and no transaction. *)
Theorem summary_of_empty_period (getTime : string -> option Z) (p : string)
    (st : DataManager) (u : UserData) :
  getCurrentUser st = Some u ->
  TS.getTransactionsByPeriod p st = [] ->
  TS.getFinancialSummary getTime p st
  = Some {| period := p;
            monthlyIncome := getMonthlyIncome p st;
            totalIncome := getMonthlyIncome p st;
            totalExpenses := Num.zero;
            balance := getMonthlyIncome p st;
            transactionCount := 0;
            expensesByCategory := ∅;
            summary_transactions := [] |}.
Proof.
  intros Hu He; unfold TS.getFinancialSummary; rewrite Hu, He; cbn.
  unfold reduce_amounts, groupByCategory; cbn.
  destruct (getMonthlyIncome_add_zero p st) as [H1 H2].
  rewrite H1, H2; reflexivity.
Qed.

Lemma summary_of_empty_period_witness :
  (balance <$> TS.getFinancialSummary Sample.getTime "2024-02" Sample.with_freelance)
  = Some Num.zero
  /\ (totalIncome <$>
        TS.getFinancialSummary Sample.getTime "2024-01" Sample.with_income)
     = Some (Num.of_Z 5000).
Proof.
  split.
  - rewrite (summary_of_empty_period Sample.getTime "2024-02" Sample.with_freelance
               (set_financial
                  (set_transactions
                     (fun _ => [Sample.rec_freelance; Sample.rec_groceries]))
                  Sample.ana_with_income)
               ltac:(vm_compute; reflexivity) ltac:(vm_compute; reflexivity)).
    vm_compute; reflexivity.
  - rewrite (summary_of_empty_period Sample.getTime "2024-01" Sample.with_income
               Sample.ana_with_income
               ltac:(vm_compute; reflexivity) ltac:(vm_compute; reflexivity)).
    vm_compute; reflexivity.
Defined.

(** X23. The categories of the breakdown. Whatever the amounts are,
    [expensesByCategory] has an entry for a category exactly when an
    expense transaction of the period names it and the category is not
    [__proto__], under which an object literal takes no property: income
    transactions make no entry, and a category outside the account's
    list of categories gets its entry like any other. The entry is a
    number exactly when, besides, the category is not the name of
    another member of [Object.prototype]. *)
Theorem expensesByCategory_entries (getTime : string -> option Z) (p : string)
    (st : DataManager) (s : Summary) (c : string) :
  TS.getFinancialSummary getTime p st = Some s ->
  (expensesByCategory s !! c = None
   <-> expensesIn c (TS.getTransactionsByPeriod p st) = [] \/ c = "__proto__")
  /\ (is_Some (expensesByCategory s !! c)
      <-> c <> "__proto__"
          /\ exists t, In t (TS.getTransactionsByPeriod p st)
                       /\ type t = "expense" /\ category t = c)
  /\ ((exists x, expensesByCategory s !! c = Some (PNumber x))
      <-> inherited c = false
          /\ exists t, In t (TS.getTransactionsByPeriod p st)
                       /\ type t = "expense" /\ category t = c).
Proof.
  unfold TS.getFinancialSummary.
  destruct (getCurrentUser st) as [u|]; [|discriminate].
  intros [= <-]; cbn [expensesByCategory].
  assert (H : groupByCategory
                (List.filter is_expense (TS.getTransactionsByPeriod p st)) !! c = None
              <-> expensesIn c (TS.getTransactionsByPeriod p st) = []
                  \/ c = "__proto__").
  { unfold groupByCategory, expensesIn.
    rewrite fold_addToCategory_None, lookup_empty; tauto. }
  assert (Hin : expensesIn c (TS.getTransactionsByPeriod p st) <> []
                <-> exists t, In t (TS.getTransactionsByPeriod p st)
                              /\ type t = "expense" /\ category t = c).
  { unfold expensesIn; split.
    - intros Hne.
      destruct (List.filter (has_category c) _) as [|t r] eqn:E; [congruence|].
      assert (Ht : In t (List.filter (has_category c)
                           (List.filter is_expense (TS.getTransactionsByPeriod p st))))
        by (rewrite E; left; reflexivity).
      apply filter_In in Ht as [Ht Hc]; apply filter_In in Ht as [Ht He].
      exists t; repeat split; [assumption | |];
        [apply String.eqb_eq, He | apply String.eqb_eq, Hc].
    - intros (t & Ht & He & Hc) Hnil.
      assert (Hi : In t (List.filter (has_category c)
                           (List.filter is_expense (TS.getTransactionsByPeriod p st)))).
      { apply filter_In; split; [apply filter_In; split; [assumption|]|].
        - unfold is_expense; rewrite He; reflexivity.
        - unfold has_category; rewrite Hc; apply String.eqb_refl. }
      rewrite Hnil in Hi; destruct Hi. }
  split; [exact H|]; split.
  - rewrite <- not_eq_None_Some, H, <- Hin.
    destruct (expensesIn c (TS.getTransactionsByPeriod p st)) as [|t r].
    + split; [intros Hn; destruct Hn; left; reflexivity | intros [_ Hn]; congruence].
    + split; [intros Hn; split; [intros ->; apply Hn; right; reflexivity | discriminate]
             | intros [Hn _] [Hd|Hd]; [discriminate | contradiction]].
  - rewrite <- Hin.
    destruct (inherited c) eqn:Hc.
    + split; [|intros [Hd _]; discriminate].
      intros [x Hx]; exfalso; revert Hx; unfold groupByCategory.
      apply fold_addToCategory_inherited; [exact Hc|].
      intros y; rewrite lookup_empty; discriminate.
    + rewrite (groupByCategory_runningTotal _ c Hc).
      destruct (expensesIn c (TS.getTransactionsByPeriod p st)) as [|t r].
      * split; [intros [x Hx]; discriminate | intros [_ Hn]; congruence].
      * split; [intros _; split; [reflexivity | discriminate] | intros _; eauto].
Qed.

Lemma expensesByCategory_entries_witness :
  (TS.getFinancialSummary Sample.getTime "2024-01" Sample.with_freelance
     ≫= fun s => expensesByCategory s !! "Outros") = None
  /\ is_Some (TS.getFinancialSummary Sample.getTime "2024-01" Sample.snack_then_broken
                ≫= fun s => expensesByCategory s !! "Food")
  /\ (TS.getFinancialSummary Sample.getTime "2024-01" Sample.with_fees
        ≫= fun s => expensesByCategory s !! "__proto__") = None.
Proof.
  split; [|split].
  - destruct (TS.getFinancialSummary Sample.getTime "2024-01" Sample.with_freelance)
      as [s|] eqn:E; [|reflexivity].
    apply (expensesByCategory_entries Sample.getTime "2024-01"
             Sample.with_freelance s "Outros" E).
    left; vm_compute; reflexivity.
  - destruct (TS.getFinancialSummary Sample.getTime "2024-01"
                Sample.snack_then_broken) as [s|] eqn:E;
      [|vm_compute in E; discriminate].
    apply (expensesByCategory_entries Sample.getTime "2024-01"
             Sample.snack_then_broken s "Food" E).
    split; [discriminate|].
    exists Sample.rec_broken; split; [vm_compute; tauto | split; reflexivity].
  - destruct (TS.getFinancialSummary Sample.getTime "2024-01" Sample.with_fees)
      as [s|] eqn:E; [|reflexivity].
    apply (expensesByCategory_entries Sample.getTime "2024-01"
             Sample.with_fees s "__proto__" E).
    right; reflexivity.
Defined.

(** X24. The list of the summary in [DataManager.ts]. It holds the
    transactions of the period, each once, as many as
    [transactionCount] says. When every date of the period is a valid
    date, the list runs from the latest date to the earliest and
    transactions of one date keep the order they have in the store; no
    other arrangement of the period's transactions does both, so this is
    the list whichever stable sort the host uses. *)
Theorem TS_summary_order (getTime : string -> option Z) (p : string)
    (st : DataManager) (s : Summary) :
  TS.getFinancialSummary getTime p st = Some s ->
  Permutation (summary_transactions s) (TS.getTransactionsByPeriod p st)
  /\ length (summary_transactions s) = transactionCount s
  /\ (Forall (fun t => is_Some (getTime (date t)))
        (TS.getTransactionsByPeriod p st) ->
      date_descending getTime (summary_transactions s)
      /\ keeps_order_of_ties getTime (TS.getTransactionsByPeriod p st)
           (summary_transactions s)
      /\ forall l',
          Permutation l' (TS.getTransactionsByPeriod p st) ->
          date_descending getTime l' ->
          keeps_order_of_ties getTime (TS.getTransactionsByPeriod p st) l' ->
          l' = summary_transactions s).
Proof.
  unfold TS.getFinancialSummary.
  destruct (getCurrentUser st) as [u|]; [|discriminate].
  intros [= <-]; cbn [summary_transactions transactionCount].
  split; [apply sort_perm|].
  split; [apply Permutation_length, sort_perm|].
  intros Hv; split; [apply sort_sorted; exact Hv|].
  split; [apply sort_ties|].
  intros l' Hp Hs Ht; apply sort_unique; assumption.
Qed.

Lemma TS_summary_order_witness :
  (map date ∘ summary_transactions <$>
     TS.getFinancialSummary Sample.getTime "2024-01" Sample.snack_then_groceries)
  = Some ["2024-01-25"; "2024-01-15"]
  /\ match TS.getFinancialSummary Sample.getTime "2024-01"
             Sample.snack_then_groceries with
     | Some s => date_descending Sample.getTime (summary_transactions s)
     | None => False
     end.
Proof.
  split; [vm_compute; reflexivity|].
  destruct (TS.getFinancialSummary Sample.getTime "2024-01"
              Sample.snack_then_groceries) as [s|] eqn:E;
    [|vm_compute in E; discriminate].
  apply (TS_summary_order Sample.getTime "2024-01"
           Sample.snack_then_groceries s E).
  match goal with
  | |- Forall _ ?l => let l' := eval vm_compute in l in change l with l'
  end.
  repeat (apply Forall_cons_2; [eexists; reflexivity|]); apply Forall_nil_2.
Defined.

Lemma sub_diag (x : number) : Num.isFinite x = true -> Num.sub x x = Num.zero.
Proof.
  destruct x as [[|]|[|]| |s m e]; try discriminate; try reflexivity.
  intros _; unfold Num.sub, SFsub.
  rewrite Z.sub_diag; reflexivity.
Qed.

Lemma percent_of_zero (x : number) :
  Num.isFinite x = true ->
  (if Num.gt x Num.zero
   then Num.mul (Num.div Num.zero x) (Num.of_Z 100)
   else Num.zero) = Num.zero.
Proof.
  destruct x as [[|]|[|]| |[|] m e]; try discriminate; reflexivity.
Qed.

(** X25. A period compared with itself. When the totals and the balance of
    a period are finite, [comparePeriods(p, p)] reports no change: the
    three differences and the two percentages are [0]. *)
Theorem comparePeriods_same_period (getTime : string -> option Z) (p : string)
    (st : DataManager) (s : Summary) :
  TS.getFinancialSummary getTime p st = Some s ->
  Num.isFinite (totalIncome s) = true ->
  Num.isFinite (totalExpenses s) = true ->
  Num.isFinite (balance s) = true ->
  TS.comparePeriods getTime p p st
  = Some {| period1 := s; period2 := s;
            comparison := {| incomeChange := Num.zero;
                             expenseChange := Num.zero;
                             balanceChange := Num.zero;
                             incomeChangePercent := Num.zero;
                             expenseChangePercent := Num.zero |} |}.
Proof.
  intros Hs Hi He Hb; unfold TS.comparePeriods; rewrite Hs.
  unfold delta.
  rewrite (sub_diag _ Hi), (sub_diag _ He), (sub_diag _ Hb),
    (percent_of_zero _ Hi), (percent_of_zero _ He).
  reflexivity.
Qed.

Lemma comparePeriods_same_period_witness :
  (comparison <$>
     TS.comparePeriods Sample.getTime "2024-01" "2024-01" Sample.with_freelance)
  = Some {| incomeChange := Num.zero; expenseChange := Num.zero;
            balanceChange := Num.zero; incomeChangePercent := Num.zero;
            expenseChangePercent := Num.zero |}.
Proof.
  destruct (TS.getFinancialSummary Sample.getTime "2024-01" Sample.with_freelance)
    as [s|] eqn:E; [|vm_compute in E; discriminate].
  assert (Hs : Some s = TS.getFinancialSummary Sample.getTime "2024-01"
                          Sample.with_freelance) by (symmetry; exact E).
  rewrite (comparePeriods_same_period Sample.getTime "2024-01"
             Sample.with_freelance s E);
    [reflexivity | | |];
    vm_compute in Hs; injection Hs as ->; reflexivity.
Defined.

End SummaryMore.

(* ===================================================================== *)
(** * The main screen *)
(* ===================================================================== *)

Module Screen.

Import DM Spec StoreFacts StrFacts.

Lemma leading_append (k r : string) :
  leading (String.length k) (k +:+ r) = k.
Proof. induction k as [|c k IH]; simpl; [destruct r|]; congruence. Qed.

(** X26. The form of the main screen. With an active account,
    [handleAddTransaction] does nothing to the manager or to the form
    when the description or the amount is empty. Otherwise it stores a
    record with the description of the form, dated at the first day of
    the period on the screen, and for a period key [YYYY-MM] the record
    is the first transaction of that period; the form is reset when the
    write to the storage goes through and kept when it does not. *)
Theorem handleAddTransaction_cases (formData : UI.FormData) (currentPeriod : string)
    (w : World) (st : DataManager) (u : UserData) :
  getCurrentUser st = Some u ->
  (UI.fd_description formData = "" \/ UI.fd_amount formData = "" ->
   UI.handleAddTransaction formData currentPeriod w st = (formData, st))
  /\ (UI.fd_description formData <> "" -> UI.fd_amount formData <> "" ->
      fst (UI.handleAddTransaction formData currentPeriod w st)
      = (if setItem_ok w then UI.emptyForm else formData)
      /\ raw (snd (UI.handleAddTransaction formData currentPeriod w st))
         = Some (newTransaction (UI.transactionDataOf formData currentPeriod) w
                   :: transactions (financial u))
      /\ description (newTransaction (UI.transactionDataOf formData currentPeriod) w)
         = Some (UI.fd_description formData)
      /\ date (newTransaction (UI.transactionDataOf formData currentPeriod) w)
         = currentPeriod +:+ "-01"
      /\ (is_period_key currentPeriod = true ->
          TS.getTransactionsByPeriod currentPeriod
            (snd (UI.handleAddTransaction formData currentPeriod w st))
          = newTransaction (UI.transactionDataOf formData currentPeriod) w
              :: TS.getTransactionsByPeriod currentPeriod st)).
Proof.
  intros Hu; unfold UI.handleAddTransaction; split.
  - intros [H|H]; rewrite H; [reflexivity|].
    destruct (UI.fd_description formData); reflexivity.
  - intros Hd Ha.
    destruct (UI.fd_description formData) as [|c r] eqn:Ed; [congruence|].
    destruct (UI.fd_amount formData) as [|c' r'] eqn:Ea; [congruence|].
    destruct (Ledger.addTransaction_spec
                (UI.transactionDataOf formData currentPeriod) w st u Hu)
      as [H1 H2].
    pose proof (Compose.TS_period_after_add currentPeriod
                  (UI.transactionDataOf formData currentPeriod) w st u Hu) as H3.
    assert (Hdate : date (newTransaction
                            (UI.transactionDataOf formData currentPeriod) w)
                    = currentPeriod +:+ "-01").
    { unfold newTransaction; cbn [date].
      unfold UI.transactionDataOf; cbn [td_date].
      destruct currentPeriod; reflexivity. }
    destruct (addTransaction (UI.transactionDataOf formData currentPeriod) w st)
      as [t st'] eqn:E; cbn [fst snd] in *.
    split; [rewrite H1; destruct (setItem_ok w); reflexivity|].
    split; [destruct t; cbn [snd]; unfold raw; rewrite H2; reflexivity|].
    split; [unfold newTransaction; cbn [description];
            unfold UI.transactionDataOf; cbn [td_description]; rewrite Ed;
            reflexivity|].
    split; [exact Hdate|].
    intros Hk.
    assert (H4 : TS.getTransactionsByPeriod currentPeriod st'
                 = newTransaction (UI.transactionDataOf formData currentPeriod) w
                     :: TS.getTransactionsByPeriod currentPeriod st).
    { rewrite H3, Hdate, substring_leading, (trim_period_key _ Hk).
      rewrite <- (is_period_key_length _ Hk) at 1.
      rewrite leading_append, String.eqb_refl; reflexivity. }
    destruct t; exact H4.
Qed.

Lemma handleAddTransaction_cases_witness :
  UI.handleAddTransaction UI.emptyForm "2024-01" (Sample.world "4")
    Sample.with_freelance
  = (UI.emptyForm, Sample.with_freelance)
  /\ (map date <$>
        raw (snd (UI.handleAddTransaction Trace.filled "2024-03" (Sample.world "4")
                    Sample.with_freelance)))
     = Some ["2024-03-01"; "2024-01-20"; "2024-01-15"].
Proof.
  pose (u := set_financial
               (set_transactions
                  (fun _ => [Sample.rec_freelance; Sample.rec_groceries]))
               Sample.ana_with_income).
  destruct (handleAddTransaction_cases UI.emptyForm "2024-01" (Sample.world "4")
              Sample.with_freelance u ltac:(vm_compute; reflexivity)) as [H1 _].
  destruct (handleAddTransaction_cases Trace.filled "2024-03" (Sample.world "4")
              Sample.with_freelance u ltac:(vm_compute; reflexivity)) as [_ H2].
  split; [apply H1; left; reflexivity|].
  destruct (H2 ltac:(vm_compute; discriminate) ltac:(vm_compute; discriminate))
    as (_ & H3 & _).
  rewrite H3; vm_compute; reflexivity.
Defined.

(** X27. The income field of the main screen. [handleMonthlyIncomeChange]
    hands [parseFloat(value) || 0] to [setMonthlyIncome], which parses
    and guards once more; the second pass changes nothing. With an
    active account the income stored for the period on the screen is
    the number read from the text, or [0] when the text is no number or
    reads as zero, and [getMonthlyIncome] returns it; the manager ends
    in the same state with [DataManager.js] as with [DataManager.ts]. *)
Theorem handleMonthlyIncomeChange_stores (value currentPeriod : string)
    (w : World) (st : DataManager) (u : UserData) :
  getCurrentUser st = Some u ->
  incomes (UI.handleMonthlyIncomeChange value currentPeriod w st)
  = Some (<[currentPeriod := Num.or_else (Host.parseFloat_string value) Num.zero]>
            (monthlyIncomes (financial u)))
  /\ getMonthlyIncome currentPeriod
       (UI.handleMonthlyIncomeChange value currentPeriod w st)
     = Num.or_else (Host.parseFloat_string value) Num.zero
  /\ UI.handleMonthlyIncomeChange_js value currentPeriod w st
     = UI.handleMonthlyIncomeChange value currentPeriod w st.
Proof.
  intros Hu.
  unfold UI.handleMonthlyIncomeChange, UI.handleMonthlyIncomeChange_js,
    TS.setMonthlyIncome, JS.setMonthlyIncome; rewrite Hu.
  cbn [Host.parseFloat].
  rewrite Compose.or_else_parseFloat_number, Compose.or_else_idempotent.
  split; [apply (Income.incomes_update _ w st u Hu)|].
  split; [|reflexivity].
  rewrite (Compose.getMonthlyIncome_insert currentPeriod currentPeriod
             (Host.parseFloat_string value) w st u Hu).
  rewrite String.eqb_refl; reflexivity.
Qed.

Lemma handleMonthlyIncomeChange_stores_witness :
  getMonthlyIncome "2024-01"
    (UI.handleMonthlyIncomeChange "" "2024-01" (Sample.world "1") Sample.with_income)
  = Num.zero
  /\ getMonthlyIncome "2024-01"
       (UI.handleMonthlyIncomeChange "4200.5" "2024-01" (Sample.world "1")
          Sample.with_income)
     = Host.parseFloat_string "4200.5".
Proof.
  split.
  - rewrite (proj1 (proj2 (handleMonthlyIncomeChange_stores "" "2024-01"
                             (Sample.world "1") Sample.with_income
                             Sample.ana_with_income
                             ltac:(vm_compute; reflexivity)))).
    reflexivity.
  - rewrite (proj1 (proj2 (handleMonthlyIncomeChange_stores "4200.5" "2024-01"
                             (Sample.world "1") Sample.with_income
                             Sample.ana_with_income
                             ltac:(vm_compute; reflexivity)))).
    vm_compute; reflexivity.
Defined.

End Screen.

(* ===================================================================== *)
(** * Periods apart *)
(* ===================================================================== *)

Module Periods.

Import DM Spec StoreFacts StrFacts.

(** The summary of the TypeScript file reads three things of the
    manager. *)
Lemma summary_ext (getTime : string -> option Z) (p : string)
    (st st' : DataManager) :
  isLoggedIn st' = isLoggedIn st ->
  TS.getTransactionsByPeriod p st' = TS.getTransactionsByPeriod p st ->
  getMonthlyIncome p st' = getMonthlyIncome p st ->
  TS.getFinancialSummary getTime p st' = TS.getFinancialSummary getTime p st.
Proof.
  unfold isLoggedIn, TS.getFinancialSummary; intros H1 H2 H3.
  rewrite H2, H3.
  destruct (getCurrentUser st'), (getCurrentUser st); try discriminate; reflexivity.
Qed.

Lemma after_set_transactions (f : list Transaction -> list Transaction)
    (w : World) (st : DataManager) (u : UserData) (p : string) :
  getCurrentUser st = Some u ->
  isLoggedIn (snd (saveData w
                     (update_currentUser (set_financial (set_transactions f)) st)))
  = isLoggedIn st
  /\ getMonthlyIncome p
       (snd (saveData w
               (update_currentUser (set_financial (set_transactions f)) st)))
     = getMonthlyIncome p st
  /\ TS.getTransactionsByPeriod p
       (snd (saveData w
               (update_currentUser (set_financial (set_transactions f)) st)))
     = List.filter
         (fun t => String.eqb (Str.substring 0 7 (date t)) (Str.trim p))
         (f (transactions (financial u))).
Proof.
  intros Hu.
  unfold isLoggedIn, getMonthlyIncome, TS.getTransactionsByPeriod.
  rewrite saveData_getCurrentUser, getCurrentUser_update, Hu.
  repeat split; reflexivity.
Qed.

Lemma filter_splice1 (f : Transaction -> bool) (tid : string)
    (l : list Transaction) (i : nat) :
  findIndex tid l = Some i ->
  Forall (fun t => id t = tid -> f t = false) l ->
  List.filter f (splice1 i l) = List.filter f l.
Proof.
  revert i; induction l as [|x r IH]; intros i Hi Hl; [discriminate|].
  inversion Hl as [|? ? Hx Hr]; subst.
  cbn [findIndex] in Hi.
  destruct (String.eqb_spec (id x) tid) as [E|E].
  - injection Hi as <-; unfold splice1; cbn.
    rewrite (Hx E), drop_0; reflexivity.
  - destruct (findIndex tid r) as [j|] eqn:Ej; [|discriminate].
    injection Hi as <-.
    change (splice1 (S j) (x :: r)) with (x :: splice1 j r).
    cbn [List.filter]; rewrite (IH j eq_refl Hr); reflexivity.
Qed.

(** X28. A summary depends on its own period only. With an active
    account, adding a transaction whose date is outside a period, or
    removing by an id that no transaction of the period has, leaves the
    summary of that period exactly as it was. *)
Theorem summary_of_other_period (getTime : string -> option Z) (p : string)
    (w : World) (st : DataManager) (u : UserData) :
  getCurrentUser st = Some u ->
  (forall td,
      String.eqb (Str.substring 0 7 (date (newTransaction td w))) (Str.trim p)
      = false ->
      TS.getFinancialSummary getTime p (snd (addTransaction td w st))
      = TS.getFinancialSummary getTime p st)
  /\ (forall tid,
        Forall (fun t => id t <> tid) (TS.getTransactionsByPeriod p st) ->
        TS.getFinancialSummary getTime p (snd (removeTransaction tid w st))
        = TS.getFinancialSummary getTime p st).
Proof.
  intros Hu; split.
  - intros td Hout.
    rewrite Invariants.addTransaction_snd, Hu.
    destruct (after_set_transactions (cons (newTransaction td w)) w st u p Hu)
      as (H1 & H2 & H3).
    apply summary_ext; [assumption| |assumption].
    rewrite H3; cbn [List.filter]; rewrite Hout.
    unfold TS.getTransactionsByPeriod; rewrite Hu; reflexivity.
  - intros tid Hout.
    unfold removeTransaction; rewrite Hu.
    destruct (findIndex tid (transactions (financial u))) as [i|] eqn:Ei;
      [|reflexivity].
    destruct (after_set_transactions (splice1 i) w st u p Hu) as (H1 & H2 & H3).
    apply summary_ext; [assumption| |assumption].
    rewrite H3.
    unfold TS.getTransactionsByPeriod in Hout |- *; rewrite Hu in Hout |- *.
    apply (filter_splice1 _ tid _ i Ei).
    rewrite Forall_forall in Hout |- *.
    intros t Ht Hid.
    destruct (String.eqb (Str.substring 0 7 (date t)) (Str.trim p)) eqn:E;
      [|reflexivity].
    exfalso; apply (Hout t); [|assumption].
    apply list_elem_of_In, filter_In; split;
      [apply list_elem_of_In; assumption | assumption].
Qed.

Lemma summary_of_other_period_witness :
  TS.getFinancialSummary Sample.getTime "2024-02"
    (snd (addTransaction Sample.snack (Sample.world "4") Sample.with_freelance))
  = TS.getFinancialSummary Sample.getTime "2024-02" Sample.with_freelance
  /\ TS.getFinancialSummary Sample.getTime "2024-02"
       (snd (removeTransaction (id Sample.rec_groceries) (Sample.world "7")
               Sample.with_freelance))
     = TS.getFinancialSummary Sample.getTime "2024-02" Sample.with_freelance.
Proof.
  destruct (summary_of_other_period Sample.getTime "2024-02" (Sample.world "4")
              Sample.with_freelance
              (set_financial
                 (set_transactions
                    (fun _ => [Sample.rec_freelance; Sample.rec_groceries]))
                 Sample.ana_with_income)
              ltac:(vm_compute; reflexivity)) as [H1 _].
  destruct (summary_of_other_period Sample.getTime "2024-02" (Sample.world "7")
              Sample.with_freelance
              (set_financial
                 (set_transactions
                    (fun _ => [Sample.rec_freelance; Sample.rec_groceries]))
                 Sample.ana_with_income)
              ltac:(vm_compute; reflexivity)) as [_ H2].
  split.
  - apply H1; vm_compute; reflexivity.
  - apply H2.
    match goal with
    | |- Forall _ ?l => let l' := eval vm_compute in l in change l with l'
    end.
    apply Forall_nil_2.
Defined.

Lemma leading_length (n : nat) (s : string) : (String.length (leading n s) <= n)%nat.
Proof.
  revert s; induction n as [|n IH]; intros [|c r]; simpl; try lia.
  specialize (IH r); lia.
Qed.

(** X29. Keys that are not [YYYY-MM]. In [DataManager.ts] a key that is
    longer than 7 characters once trimmed selects no transaction at
    all, because only the first 7 characters of a date are compared. In
    [DataManager.js] the empty key selects every stored transaction,
    because every date starts with the empty text. *)
Theorem period_key_edges (st : DataManager) :
  (forall yearMonth,
      (7 < String.length (Str.trim yearMonth))%nat ->
      TS.getTransactionsByPeriod yearMonth st = [])
  /\ JS.getTransactionsByPeriod "" st = stored st.
Proof.
  split.
  - intros yearMonth Hlen; unfold TS.getTransactionsByPeriod.
    destruct (getCurrentUser st) as [u|]; [|reflexivity].
    induction (transactions (financial u)) as [|t r IH]; [reflexivity|].
    cbn [List.filter]; rewrite IH.
    destruct (String.eqb_spec (Str.substring 0 7 (date t)) (Str.trim yearMonth))
      as [E|E]; [|reflexivity].
    pose proof (leading_length 7 (date t)) as Hl.
    rewrite <- substring_leading, E in Hl; lia.
  - unfold JS.getTransactionsByPeriod, stored.
    destruct (getCurrentUser st) as [u|]; [|reflexivity].
    induction (transactions (financial u)) as [|t r IH]; [reflexivity|].
    cbn [List.filter]; rewrite IH.
    unfold Str.startsWith; destruct (date t); reflexivity.
Qed.

Lemma period_key_edges_witness :
  TS.getTransactionsByPeriod "2024-01-15" Sample.with_freelance = []
  /\ JS.getTransactionsByPeriod "2024-01-15" Sample.with_freelance
     = [Sample.rec_groceries]
  /\ JS.getTransactionsByPeriod "" Sample.with_freelance
     = [Sample.rec_freelance; Sample.rec_groceries].
Proof.
  destruct (period_key_edges Sample.with_freelance) as [H1 H2].
  split; [apply H1; vm_compute; lia|].
  split; [vm_compute; reflexivity|].
  rewrite H2; vm_compute; reflexivity.
Defined.

End Periods.
